(** * macos-gemini-overlay: the application delegate of the overlay shell

    A shallow embedding of [src/macos_gemini_overlay/app.py].  The three
    classes of the file ([AppWindow], [DragArea], [AppDelegate]) become
    modules of functions over one explicit state: the fields of the
    delegate together with the part of the windowing system the handlers
    read and write (window, views, application, event tap, timers).

    Conventions.
    - A Python [float] is an IEEE 754 double: a finite value is held as the
      rational the double is exactly, and [float(s)] and the division round
      to the nearest double (ties to even), with underflow to a signed
      zero and overflow to an infinity.  The sign and payload of a NaN are
      not modelled.
    - A Python [str] is a [string] holding its UTF-8 encoding.  The
      handlers search and cut strings at ASCII characters only, which no
      byte of a longer encoding equals, so they do on the bytes what Python
      does on the characters.
    - Every call into AppKit / WebKit / Quartz that has an effect outside
      the delegate either updates the modelled part of the windowing system
      or is appended to the list [calls] in program order.  [print] appends
      to [stdout], and so does what the start-up helpers of [launcher.py]
      write.
    - Values the operating system hands to a handler (the clock, the result
      of a hit test, whether the tap could be created, ...) are explicit
      arguments. *)

From Stdlib Require Import Bool Arith ZArith NArith QArith Qabs Qpower Qround.
From Stdlib Require Import Lia Lqa List Ascii String.
From Stdlib Require Import DecimalString.
From Stdlib Require SpecFloat.
Import ListNotations.

Local Open Scope string_scope.

(** ** Python strings *)

Module Py.

(** [c in s] for a one-character needle. *)
Fixpoint contains (c : ascii) (s : string) : bool :=
  match s with
  | EmptyString => false
  | String d s' => if Ascii.eqb c d then true else contains c s'
  end.

(** [s.index(c)] for a one-character needle; [None] stands for the
    [ValueError] raised when [c] does not occur. *)
Fixpoint index (c : ascii) (s : string) : option nat :=
  match s with
  | EmptyString => None
  | String d s' =>
      if Ascii.eqb c d then Some 0%nat
      else option_map S (index c s')
  end.

(** [s[a:b]] for indices [0 <= a], [0 <= b]: the characters at positions
    [a <= k < b]; empty when [b <= a]. *)
Definition slice (a b : nat) (s : string) : string :=
  substring a (b - a) s.

(** [s.split(c)] for a one-character separator: always at least one piece. *)
Fixpoint split (c : ascii) (s : string) : list string :=
  match s with
  | EmptyString => [EmptyString]
  | String d s' =>
      if Ascii.eqb c d then EmptyString :: split c s'
      else match split c s' with
           | [] => [String d EmptyString]
           | p :: ps => String d p :: ps
           end
  end.

(** [s.startswith(p)]. *)
Definition startswith (p s : string) : bool := String.prefix p s.

(** *** [float(s)] *)

(** The value of a Python float, an IEEE 754 binary64 number: a finite
    number (as the rational the double is exactly; [Fin 0] is plus zero),
    an infinity, a NaN, or minus zero. *)
Inductive float : Type :=
| Fin (q : Q)
| Inf (negative : bool)
| NaN
| NegZero.

(** For [0 < q], the exponent [e] with [2^e <= q < 2^(e+1)]. *)
Definition binade (q : Q) : Z :=
  let e := (Z.log2 (Qnum q) - Z.log2 (Zpos (Qden q)))%Z in
  if Qle_bool (2 ^ e) q then e else (e - 1)%Z.

(** The distance between the doubles around [q]: 53 bits of precision, down
    to the exponent [-1022], below which the subnormal numbers stay
    [2^-1074] apart. *)
Definition ulp (q : Q) : Q := 2 ^ (Z.max (binade q) (-1022) - 52).

(** The integer nearest to [x]; of two at the same distance, the even one. *)
Definition nearest_even (x : Q) : Z :=
  let f := Qfloor x in
  match Qcompare (x - inject_Z f) (1 # 2) with
  | Lt => f
  | Gt => (f + 1)%Z
  | Eq => if Z.even f then f else (f + 1)%Z
  end.

Definition zero (negative : bool) : float := if negative then NegZero else Fin 0.

(** The double nearest to the magnitude [0 <= q], with the sign [negative]:
    round to nearest, ties to even.  A magnitude that rounds to nothing
    gives a zero and one that rounds to [2^1024] an infinity, both with the
    sign.  This is the rounding of [float(s)] and of the division. *)
Definition round (negative : bool) (q : Q) : float :=
  if Qle_bool q 0 then zero negative
  else
    let m := nearest_even (q / ulp q) in
    if (m =? 0)%Z then zero negative
    else
      let v := Qred (inject_Z m * ulp q) in
      if Qle_bool (2 ^ 1024) v then Inf negative
      else Fin (if negative then - v else v).

(** A [str] is held as its UTF-8 encoding.  Before it reads a number,
    [float] turns every character beyond ASCII that is a blank into a space
    and every one that is a decimal digit into its ASCII digit; at the first
    character that is neither, the string is cut and ends in a question
    mark ([_PyUnicode_TransformDecimalAndSpaceToASCII]). *)

(** The blanks beyond ASCII ([Py_UNICODE_ISSPACE]). *)
Definition unicode_spaces : list N :=
  [0x85; 0xA0; 0x1680; 0x2000; 0x2001; 0x2002; 0x2003; 0x2004; 0x2005; 0x2006;
   0x2007; 0x2008; 0x2009; 0x200A; 0x2028; 0x2029; 0x202F; 0x205F; 0x3000]%N.

(** The zeros of the decimal digits beyond ASCII (Unicode 14.0, the table of
    Python 3.11); the digits one to nine follow their zero. *)
Definition unicode_zeros : list N :=
  [0x660; 0x6F0; 0x7C0; 0x966; 0x9E6; 0xA66; 0xAE6; 0xB66; 0xBE6; 0xC66;
   0xCE6; 0xD66; 0xDE6; 0xE50; 0xED0; 0xF20; 0x1040; 0x1090; 0x17E0; 0x1810;
   0x1946; 0x19D0; 0x1A80; 0x1A90; 0x1B50; 0x1BB0; 0x1C40; 0x1C50; 0xA620;
   0xA8D0; 0xA900; 0xA9D0; 0xA9F0; 0xAA50; 0xABF0; 0xFF10; 0x104A0; 0x10D30;
   0x11066; 0x110F0; 0x11136; 0x111D0; 0x112F0; 0x11450; 0x114D0; 0x11650;
   0x116C0; 0x11730; 0x118E0; 0x11950; 0x11C50; 0x11D50; 0x11DA0; 0x16A60;
   0x16AC0; 0x16B50; 0x1D7CE; 0x1D7D8; 0x1D7E2; 0x1D7EC; 0x1D7F6; 0x1E140;
   0x1E2F0; 0x1E950; 0x1FBF0]%N.

Definition isspace_unicode (cp : N) : bool := existsb (N.eqb cp) unicode_spaces.

(** [Py_UNICODE_TODECIMAL] beyond ASCII. *)
Definition todecimal (cp : N) : option N :=
  option_map (fun z => cp - z)%N
    (find (fun z => (z <=? cp) && (cp <? z + 10))%N unicode_zeros).

(** What stands for the character [cp] beyond ASCII, before the rest. *)
Definition transformed (cp : N) (rest : string) : string :=
  if isspace_unicode cp then String " " rest
  else
    match todecimal cp with
    | Some d => String (ascii_of_N (48 + d)) rest
    | None => "?"
    end.

(** [pending] is the character being decoded: the bits read so far, the
    number of bytes still to come and the least character of an encoding of
    this length.  Bytes that encode no character end the string like a
    character that is neither blank nor digit. *)
Fixpoint to_ascii (pending : option (N * nat * N)) (s : string) : string :=
  match s with
  | EmptyString =>
      match pending with
      | None => EmptyString
      | Some _ => "?"
      end
  | String c s' =>
      let b := N_of_ascii c in
      match pending with
      | None =>
          if (b <? 127)%N then String c (to_ascii None s')
          else if ((194 <=? b) && (b <=? 223))%N
          then to_ascii (Some (b - 192, 1%nat, 128)%N) s'
          else if ((224 <=? b) && (b <=? 239))%N
          then to_ascii (Some (b - 224, 2%nat, 2048)%N) s'
          else if ((240 <=? b) && (b <=? 244))%N
          then to_ascii (Some (b - 240, 3%nat, 65536)%N) s'
          else "?"
      | Some (bits, n, least) =>
          if ((128 <=? b) && (b <=? 191))%N then
            let cp := (bits * 64 + (b - 128))%N in
            match n with
            | S (S _ as n') => to_ascii (Some (cp, n', least)) s'
            | _ =>
                if (least <=? cp)%N then transformed cp (to_ascii None s')
                else "?"
            end
          else "?"
      end
  end.

(** [Py_ISSPACE]: the characters [float] strips on both sides. *)
Definition isspace (c : ascii) : bool :=
  let n := nat_of_ascii c in
  ((9 <=? n) && (n <=? 13))%nat || (n =? 32)%nat.

Definition isdigit (c : ascii) : bool :=
  let n := nat_of_ascii c in ((48 <=? n) && (n <=? 57))%nat.

Definition digit_value (c : ascii) : Z := Z.of_nat (nat_of_ascii c - 48).

Fixpoint lstrip (s : string) : string :=
  match s with
  | String c s' => if isspace c then lstrip s' else s
  | EmptyString => EmptyString
  end.

Fixpoint rstrip (s : string) : string :=
  match s with
  | EmptyString => EmptyString
  | String c s' =>
      match rstrip s' with
      | EmptyString => if isspace c then EmptyString else String c EmptyString
      | t => String c t
      end
  end.

Definition strip (s : string) : string := rstrip (lstrip s).

(** Underscores are dropped when they stand between two digits and make the
    literal invalid anywhere else.  [prev] is the previous character of the
    original string ([None] at the start). *)
Fixpoint drop_underscores (prev : option ascii) (s : string) : option string :=
  match s with
  | EmptyString =>
      match prev with
      | Some "_"%char => None
      | _ => Some EmptyString
      end
  | String c s' =>
      if Ascii.eqb c "_" then
        match prev with
        | Some p => if isdigit p then drop_underscores (Some c) s' else None
        | None => None
        end
      else
        match prev with
        | Some "_"%char =>
            if isdigit c
            then option_map (String c) (drop_underscores (Some c) s')
            else None
        | _ => option_map (String c) (drop_underscores (Some c) s')
        end
  end.

(** ASCII lower-casing, for the case-insensitive [inf] / [nan]. *)
Definition lower (c : ascii) : ascii :=
  let n := nat_of_ascii c in
  if ((65 <=? n) && (n <=? 90))%nat then ascii_of_nat (n + 32) else c.

Fixpoint lowercase (s : string) : string :=
  match s with
  | EmptyString => EmptyString
  | String c s' => String (lower c) (lowercase s')
  end.

(** Reads a maximal run of digits: its value (continuing from [acc]), the
    number of digits read and the rest of the string. *)
Fixpoint digits (acc : Z) (n : nat) (s : string) : Z * nat * string :=
  match s with
  | String c s' =>
      if isdigit c then digits (10 * acc + digit_value c) (S n) s'
      else (acc, n, s)
  | EmptyString => (acc, n, s)
  end.

(** An optional sign: [true] for a minus. *)
Definition sign (s : string) : bool * string :=
  match s with
  | String "-"%char s' => (true, s')
  | String "+"%char s' => (false, s')
  | _ => (false, s)
  end.

(** The exponent part [e[+-]ddd]; a literal that goes on after its mantissa
    with anything else is not a number. *)
Definition exponent (s : string) : option Z :=
  match s with
  | EmptyString => Some 0%Z
  | String c s' =>
      if Ascii.eqb (lower c) "e" then
        let (neg, t) := sign s' in
        match digits 0 0 t with
        | (_, O, _) => None
        | (e, S _, EmptyString) => Some (if neg then (- e)%Z else e)
        | (_, S _, String _ _) => None
        end
      else None
  end.

(** [digits [. digits] [exponent]] with at least one digit in the mantissa:
    the double nearest to the number written. *)
Definition decimal (neg : bool) (s : string) : option float :=
  let '(ip, ni, s1) := digits 0 0 s in
  let '(m, nf, s2) :=
    match s1 with
    | String "."%char t => digits ip 0 t
    | _ => (ip, 0%nat, s1)
    end in
  match (ni + nf)%nat with
  | O => None
  | S _ =>
      match exponent s2 with
      | None => None
      | Some e => Some (round neg (inject_Z m * Qpower 10 (e - Z.of_nat nf)))
      end
  end.

(** [float(s)]; [None] stands for [ValueError]. *)
Definition float_of_string (s : string) : option float :=
  match drop_underscores None (strip (to_ascii None s)) with
  | None => None
  | Some u =>
      let (neg, body) := sign u in
      let l := lowercase body in
      if String.eqb l "inf" || String.eqb l "infinity" then Some (Inf neg)
      else if String.eqb l "nan" then Some NaN
      else decimal neg body
  end.

(** [x / 255.0] and the like: the quotient by a finite constant [0 < d],
    rounded to the nearest double. *)
Definition div (x : float) (d : Q) : float :=
  match x with
  | Fin q => if Qle_bool 0 q then round false (q / d) else round true (- q / d)
  | Inf s => Inf s
  | NaN => NaN
  | NegZero => NegZero
  end.

End Py.

(** ** Constants

    The values the delegate imports from [constants.py] are parameters of
    the development. *)

Class Constants : Type := {
  APP_TITLE : string;
  DRAG_AREA_HEIGHT : Q;
  FRAME_SAVE_NAME : string;
  WEBSITE : string
}.

(** ** Objects of the windowing system *)

Record NSPoint : Type := { pt_x : Q; pt_y : Q }.

Record NSRect : Type := {
  origin_x : Q;
  origin_y : Q;
  size_width : Q;
  size_height : Q
}.

Definition NSMakeRect (x y w h : Q) : NSRect :=
  {| origin_x := x; origin_y := y; size_width := w; size_height := h |}.

(** [NSColor.colorWithCalibratedRed_green_blue_alpha_]. *)
Record NSColor : Type := {
  redComponent : Py.float;
  greenComponent : Py.float;
  blueComponent : Py.float;
  alphaComponent : Py.float
}.

(** The views of the content view's hierarchy. *)
Inductive view : Type :=
| content_view
| drag_area
| close_button
| webview
| web_subview (n : nat).

(** Windows an event can belong to: the overlay window or a window that is
    not the delegate's (a menu, a panel). *)
Inductive window_ref : Type :=
| overlay_window
| other_window (n : nat).

(** The part of an [NSEvent] the handlers read.  [hitTest] is the answer of
    [contentView().hitTest_(locationInWindow)] for this event. *)
Record NSEvent : Type := {
  ev_window : option window_ref;
  locationInWindow : NSPoint;
  hitTest : option view;
  modifierFlags : Z;
  charactersIgnoringModifiers : string
}.

Definition NSShiftKeyMask : Z := Z.shiftl 1 17.
Definition NSControlKeyMask : Z := Z.shiftl 1 18.
Definition NSAlternateKeyMask : Z := Z.shiftl 1 19.
Definition NSCommandKeyMask : Z := Z.shiftl 1 20.

(** Truth value of a Python integer. *)
Definition truthy (z : Z) : bool := negb (z =? 0)%Z.

(** The JavaScript texts the delegate hands to the web view, by the place
    of their literal in the source. *)
Inductive script : Type :=
| js_new_chat                      (* keyDown_, key 'n': clicks the page's
                                      new-chat button or, without one, sets
                                      location.href to a fixed address *)
| js_toggle_sidebar                (* keyDown_, key 's' *)
| js_saved_info                    (* keyDown_, key ',' *)
| js_focus (timestamp : string)    (* _focus_prompt_area, an f-string *)
| js_monitor.                      (* the user script installed at launch *)

Inductive msg_target : Type := target_self | target_NSApp.

Record NSMenuItem : Type := {
  item_title : string;
  item_action : string;
  item_keyEquivalent : string;
  item_target : msg_target
}.

Record NSTimer : Type := {
  timeInterval : Q;
  timer_selector : string;
  repeats : bool
}.

Inductive CFMachPort : Type := MachPort (id : nat).
Inductive CFRunLoopSource : Type := RunLoopSource (port : CFMachPort).

Inductive logo : Type := logo_white | logo_black.

(** Calls into the frameworks, in program order. *)
Inductive call : Type :=
| makeKeyAndOrderFront
| activateIgnoringOtherApps (flag : bool)
| NSApp_hide
| NSApp_terminate
| evaluateJavaScript (js : script)
| loadRequest (url : string)
| performWindowDragWithEvent (e : NSEvent)
| firstResponder (action : string)
| removeDataOfTypes
| CGEventTapEnable (tap : CFMachPort) (enable : bool)
| install_startup
| uninstall_startup
| set_custom_launcher_trigger.

(** Modelled from the spec: the trigger combination, which [listener.py]
    owns and the delegate never reads: a modifier-key bitmask and a key
    code. *)
Record Trigger : Type := { trigger_flags : Z; trigger_key : Z }.

(** ** The state *)

Record NSApplication : Type := {
  accessory : bool;
  isActive : bool;
  isHidden : bool;
  isTerminated : bool
}.

Record AppWindowState : Type := {
  frame : NSRect;
  floating : bool;
  frameAutosaveName : option string;
  delegate : bool;          (* [delegate()] is the AppDelegate *)
  isKeyWindow : bool;
  isOnScreen : bool         (* in the screen list; shown unless the app is hidden *)
}.

Record Views : Type := {
  drag_area_frame : NSRect;
  drag_area_backgroundColor : option NSColor;
  close_button_frame : NSRect;
  close_button_action : string;
  webview_frame : NSRect
}.

Record WebSurface : Type := {
  navigationDelegate : bool;
  scriptMessageHandlers : list string;
  userScripts : list script
}.

Record StatusItem : Type := {
  status_menu : list NSMenuItem;
  status_image : option logo;
  effectiveAppearance_dark : bool
}.

Record EventTapState : Type := {
  event_tap : option (option CFMachPort);   (* [None]: attribute not set *)
  event_tap_source : option CFRunLoopSource;
  main_run_loop_sources : list CFRunLoopSource;
  tap_enabled : bool                        (* [CGEventTapIsEnabled] *)
}.

Record Persisted : Type := {
  saved_frame : option NSRect;   (* user defaults, under the autosave name *)
  launcher_trigger : Trigger
}.

Record state : Type := {
  NSApp : NSApplication;
  window : AppWindowState;
  views : Views;
  web : WebSurface;
  status_item : StatusItem;
  tap : EventTapState;
  timers : list NSTimer;
  resize_observer : bool;
  local_mouse_monitor : bool;
  persisted : Persisted;
  stdout : list string;
  calls : list call
}.

(** Field updates. *)

Definition with_NSApp (f : NSApplication -> NSApplication) (s : state) : state :=
  {| NSApp := f (NSApp s); window := window s; views := views s; web := web s;
     status_item := status_item s; tap := tap s; timers := timers s;
     resize_observer := resize_observer s;
     local_mouse_monitor := local_mouse_monitor s; persisted := persisted s;
     stdout := stdout s; calls := calls s |}.

Definition with_window (f : AppWindowState -> AppWindowState) (s : state) : state :=
  {| NSApp := NSApp s; window := f (window s); views := views s; web := web s;
     status_item := status_item s; tap := tap s; timers := timers s;
     resize_observer := resize_observer s;
     local_mouse_monitor := local_mouse_monitor s; persisted := persisted s;
     stdout := stdout s; calls := calls s |}.

Definition with_views (f : Views -> Views) (s : state) : state :=
  {| NSApp := NSApp s; window := window s; views := f (views s); web := web s;
     status_item := status_item s; tap := tap s; timers := timers s;
     resize_observer := resize_observer s;
     local_mouse_monitor := local_mouse_monitor s; persisted := persisted s;
     stdout := stdout s; calls := calls s |}.

Definition with_web (f : WebSurface -> WebSurface) (s : state) : state :=
  {| NSApp := NSApp s; window := window s; views := views s; web := f (web s);
     status_item := status_item s; tap := tap s; timers := timers s;
     resize_observer := resize_observer s;
     local_mouse_monitor := local_mouse_monitor s; persisted := persisted s;
     stdout := stdout s; calls := calls s |}.

Definition with_status_item (f : StatusItem -> StatusItem) (s : state) : state :=
  {| NSApp := NSApp s; window := window s; views := views s; web := web s;
     status_item := f (status_item s); tap := tap s; timers := timers s;
     resize_observer := resize_observer s;
     local_mouse_monitor := local_mouse_monitor s; persisted := persisted s;
     stdout := stdout s; calls := calls s |}.

Definition with_tap (f : EventTapState -> EventTapState) (s : state) : state :=
  {| NSApp := NSApp s; window := window s; views := views s; web := web s;
     status_item := status_item s; tap := f (tap s); timers := timers s;
     resize_observer := resize_observer s;
     local_mouse_monitor := local_mouse_monitor s; persisted := persisted s;
     stdout := stdout s; calls := calls s |}.

Definition with_timers (f : list NSTimer -> list NSTimer) (s : state) : state :=
  {| NSApp := NSApp s; window := window s; views := views s; web := web s;
     status_item := status_item s; tap := tap s; timers := f (timers s);
     resize_observer := resize_observer s;
     local_mouse_monitor := local_mouse_monitor s; persisted := persisted s;
     stdout := stdout s; calls := calls s |}.

Definition with_observers (r m : bool) (s : state) : state :=
  {| NSApp := NSApp s; window := window s; views := views s; web := web s;
     status_item := status_item s; tap := tap s; timers := timers s;
     resize_observer := r; local_mouse_monitor := m; persisted := persisted s;
     stdout := stdout s; calls := calls s |}.

Definition with_persisted (f : Persisted -> Persisted) (s : state) : state :=
  {| NSApp := NSApp s; window := window s; views := views s; web := web s;
     status_item := status_item s; tap := tap s; timers := timers s;
     resize_observer := resize_observer s;
     local_mouse_monitor := local_mouse_monitor s; persisted := f (persisted s);
     stdout := stdout s; calls := calls s |}.

Definition with_stdout (f : list string -> list string) (s : state) : state :=
  {| NSApp := NSApp s; window := window s; views := views s; web := web s;
     status_item := status_item s; tap := tap s; timers := timers s;
     resize_observer := resize_observer s;
     local_mouse_monitor := local_mouse_monitor s; persisted := persisted s;
     stdout := f (stdout s); calls := calls s |}.

Definition with_calls (f : list call -> list call) (s : state) : state :=
  {| NSApp := NSApp s; window := window s; views := views s; web := web s;
     status_item := status_item s; tap := tap s; timers := timers s;
     resize_observer := resize_observer s;
     local_mouse_monitor := local_mouse_monitor s; persisted := persisted s;
     stdout := stdout s; calls := f (calls s) |}.

(** ** Handlers as computations

    A handler runs on the state and either returns or raises a Python
    exception; either way it leaves a state behind. *)

Inductive exn : Type :=
| ValueError_float (s : string)             (* could not convert string to float *)
| ValueError_unpack (expected got : nat)    (* not enough values to unpack *)
| ValueError_index.                         (* substring not found *)

Inductive outcome (A : Type) : Type :=
| Returned (a : A) (s : state)
| Raised (e : exn) (s : state).

Arguments Returned {A} a s.
Arguments Raised {A} e s.

Definition M (A : Type) : Type := state -> outcome A.

Definition ret {A} (a : A) : M A := fun s => Returned a s.

Definition bind {A B} (m : M A) (k : A -> M B) : M B :=
  fun s =>
    match m s with
    | Returned a s' => k a s'
    | Raised e s' => Raised e s'
    end.

Definition raise {A} (e : exn) : M A := fun s => Raised e s.
Definition gets {A} (f : state -> A) : M A := fun s => Returned (f s) s.
Definition modify (f : state -> state) : M unit := fun s => Returned tt (f s).

(** The state a computation leaves behind, returned or raised. *)
Definition final {A} (o : outcome A) : state :=
  match o with
  | Returned _ s => s
  | Raised _ s => s
  end.

Declare Scope py_scope.
Delimit Scope py_scope with py.
Notation "x <- m ;; k" := (bind m (fun x => k))
  (at level 61, m at next level, right associativity) : py_scope.
Notation "m ;; k" := (bind m (fun _ => k))
  (at level 61, right associativity) : py_scope.
Local Open Scope py_scope.

(** *** Primitive operations *)

Definition print (line : string) : M unit :=
  modify (with_stdout (fun out => (out ++ [line])%list)).

Definition record_call (c : call) : M unit :=
  modify (with_calls (fun cs => (cs ++ [c])%list)).

(** [window.makeKeyAndOrderFront_(None)]: the window is put on screen in
    front of its level and made the key window. *)
Definition window_makeKeyAndOrderFront_ : M unit :=
  record_call makeKeyAndOrderFront ;;
  modify (with_window (fun w =>
    {| frame := frame w; floating := floating w;
       frameAutosaveName := frameAutosaveName w; delegate := delegate w;
       isKeyWindow := true; isOnScreen := true |})).

(** [NSApp.activateIgnoringOtherApps_(flag)]: the application becomes
    active, which also ends a hidden state. *)
Definition NSApp_activateIgnoringOtherApps_ (flag : bool) : M unit :=
  record_call (activateIgnoringOtherApps flag) ;;
  modify (with_NSApp (fun a =>
    {| accessory := accessory a; isActive := true; isHidden := false;
       isTerminated := isTerminated a |})).

(** [NSApp.hide_(None)]: all windows of the application leave the screen
    without being closed, the application is deactivated, and no window of
    it is key any more. *)
Definition NSApp_hide_ : M unit :=
  record_call NSApp_hide ;;
  modify (with_NSApp (fun a =>
    {| accessory := accessory a; isActive := false; isHidden := true;
       isTerminated := isTerminated a |})) ;;
  modify (with_window (fun w =>
    {| frame := frame w; floating := floating w;
       frameAutosaveName := frameAutosaveName w; delegate := delegate w;
       isKeyWindow := false; isOnScreen := isOnScreen w |})).

(** [NSApp.terminate_(None)]. *)
Definition NSApp_terminate_ : M unit :=
  record_call NSApp_terminate ;;
  modify (with_NSApp (fun a =>
    {| accessory := accessory a; isActive := isActive a;
       isHidden := isHidden a; isTerminated := true |})).

Definition webview_evaluateJavaScript_completionHandler_ (js : script) : M unit :=
  record_call (evaluateJavaScript js).

Definition webview_loadRequest_ (url : string) : M unit :=
  record_call (loadRequest url).

Definition webview_setFrame_ (r : NSRect) : M unit :=
  modify (with_views (fun v =>
    {| drag_area_frame := drag_area_frame v;
       drag_area_backgroundColor := drag_area_backgroundColor v;
       close_button_frame := close_button_frame v;
       close_button_action := close_button_action v;
       webview_frame := r |})).

Definition window_performWindowDragWithEvent_ (e : NSEvent) : M unit :=
  record_call (performWindowDragWithEvent e).

Definition firstResponder_send (action : string) : M unit :=
  record_call (firstResponder action).

(** [self.window.contentView().bounds()]: the window is borderless, so the
    content view covers the window's frame. *)
Definition content_bounds (s : state) : NSRect :=
  NSMakeRect 0 0 (size_width (frame (window s))) (size_height (frame (window s))).

Definition contentView_bounds : M NSRect := gets content_bounds.

(** [CGEventTapEnable(tap, enable)]. *)
Definition CGEventTapEnable_ (t : CFMachPort) (enable : bool) : M unit :=
  record_call (CGEventTapEnable t enable) ;;
  modify (with_tap (fun e =>
    {| event_tap := event_tap e; event_tap_source := event_tap_source e;
       main_run_loop_sources := main_run_loop_sources e;
       tap_enabled := enable |})).

(** [CGEventTapIsEnabled(tap)]. *)
Definition CGEventTapIsEnabled_ (t : CFMachPort) : M bool :=
  gets (fun s => tap_enabled (tap s)).

(** [NSTimer.scheduledTimerWithTimeInterval_target_selector_userInfo_repeats_]
    with the delegate as target: the timer joins the run loop. *)
Definition NSTimer_scheduledTimer (interval : Q) (selector : string) (rep : bool)
  : M unit :=
  modify (with_timers (fun ts =>
    (ts ++ [{| timeInterval := interval; timer_selector := selector;
             repeats := rep |}])%list)).

(** Modelled from the spec: [install_startup()] and [uninstall_startup()] of
    [launcher.py], the start-up manager, which is not among the sources.
    By the spec such a helper registers (or removes) the shell for launch
    at login and returns success or failure, and a failure is logged.  The
    helper [c] runs once: it writes the lines [log] to the output and
    returns [ok]. *)
Definition startup_helper (c : call) (ok : bool) (log : list string) : M bool :=
  record_call c ;;
  modify (with_stdout (fun out => (out ++ log)%list)) ;;
  ret ok.


(** ** class DragArea *)

Module DragArea.

Definition initWithFrame_ (r : NSRect) : M unit :=
  modify (with_views (fun v =>
    {| drag_area_frame := r;
       drag_area_backgroundColor := drag_area_backgroundColor v;
       close_button_frame := close_button_frame v;
       close_button_action := close_button_action v;
       webview_frame := webview_frame v |})).

Definition setFrame_ (r : NSRect) : M unit := initWithFrame_ r.

Definition setBackgroundColor_ (color : NSColor) : M unit :=
  modify (with_views (fun v =>
    {| drag_area_frame := drag_area_frame v;
       drag_area_backgroundColor := Some color;
       close_button_frame := close_button_frame v;
       close_button_action := close_button_action v;
       webview_frame := webview_frame v |})).

Definition mouseDown_ (event : NSEvent) : M unit :=
  window_performWindowDragWithEvent_ event.

End DragArea.

(** A script message as the handler reads it: [name()] and [body()]. *)
Record WKScriptMessage : Type := { msg_name : string; msg_body : string }.

(** [str(sender)] inside an f-string: [None] or the object's description. *)
Definition str_of_sender (sender : option string) : string :=
  match sender with
  | None => "None"
  | Some description => description
  end.

(** [[float(val) for val in pieces]]: the first piece that is not a number
    raises. *)
Fixpoint floats (pieces : list string) : M (list Py.float) :=
  match pieces with
  | [] => ret []
  | val :: rest =>
      match Py.float_of_string val with
      | None => raise (ValueError_float val)
      | Some x => xs <- floats rest ;; ret (x :: xs)
      end
  end.

(** [r, g, b = values], for a list of at most three values (the handler
    unpacks a slice [[:3]]). *)
Definition unpack3 (values : list Py.float) : M (Py.float * Py.float * Py.float) :=
  match values with
  | [r; g; b] => ret (r, g, b)
  | _ => raise (ValueError_unpack 3 (List.length values))
  end.

(** [s.index(c)] as a computation. *)
Definition index_of (c : ascii) (s : string) : M nat :=
  match Py.index c s with
  | Some i => ret i
  | None => raise ValueError_index
  end.

(** ** class AppDelegate *)

Module AppDelegate.

Section WithConstants.

Context {K : Constants}.

(** Python method to call JS that focuses the Gemini textarea / prompt.
    [now] is the reading of [time.time()], as the f-strings print it. *)
Definition _focus_prompt_area (now : string) : M unit :=
  print ("[DEBUG] _focus_prompt_area called at " ++ now) ;;
  webview_evaluateJavaScript_completionHandler_ (js_focus now).

(** Logic to show the overlay, make it the key window, and focus on the
    typing area. *)
Definition showWindow_ (sender : option string) (now : string) : M unit :=
  print ("[DEBUG] showWindow_ called (sender: " ++ str_of_sender sender ++ ")") ;;
  window_makeKeyAndOrderFront_ ;;
  NSApp_activateIgnoringOtherApps_ true ;;
  _focus_prompt_area now.

(** Hide the overlay and allow focus to return to the next visible
    application. *)
Definition hideWindow_ (sender : option string) : M unit :=
  NSApp_hide_.

Definition goToWebsite_ (sender : option string) : M unit :=
  webview_loadRequest_ WEBSITE.

(** The completion handler prints when the store is done; see
    [clearWebViewData_completion]. *)
Definition clearWebViewData_ (sender : option string) : M unit :=
  record_call removeDataOfTypes.

Definition clearWebViewData_completion : M unit :=
  print "Data cleared".

(** [ok] and [log] are what [install_startup()] returns and what it writes
    to the output. *)
Definition install_ (sender : option string) (ok : bool) (log : list string)
  : M unit :=
  installed <- startup_helper install_startup ok log ;;
  if installed then
    print "Installation successful, exiting." ;;
    NSApp_terminate_
  else
    print "Installation unsuccessful.".

(** [ok] and [log] are what [uninstall_startup()] returns and what it
    writes to the output. *)
Definition uninstall_ (sender : option string) (ok : bool) (log : list string)
  : M unit :=
  uninstalled <- startup_helper uninstall_startup ok log ;;
  if uninstalled then NSApp_hide_ else ret tt.

Definition setTrigger_ (sender : option string) : M unit :=
  record_call set_custom_launcher_trigger.

(** For capturing key commands while the key window (in focus). *)
Definition keyDown_ (event : NSEvent) : M unit :=
  let modifiers := modifierFlags event in
  let key_command := Z.land modifiers NSCommandKeyMask in
  let key_alt := Z.land modifiers NSAlternateKeyMask in
  let key_shift := Z.land modifiers NSShiftKeyMask in
  let key_control := Z.land modifiers NSControlKeyMask in
  let key := charactersIgnoringModifiers event in
  if (truthy key_command || truthy key_control) && negb (truthy key_alt) then
    if key =? "a" then firstResponder_send "selectAll:"
    else if key =? "c" then firstResponder_send "copy:"
    else if key =? "x" then firstResponder_send "cut:"
    else if key =? "v" then firstResponder_send "paste:"
    else if key =? "h" then hideWindow_ None
    else if key =? "n" then
      webview_evaluateJavaScript_completionHandler_ js_new_chat
    else if (key =? "s") && truthy key_control && truthy key_command then
      webview_evaluateJavaScript_completionHandler_ js_toggle_sidebar
    else if key =? "q" then NSApp_terminate_
    else if (key =? ",") && truthy key_command && negb (truthy key_control)
            && negb (truthy key_alt) then
      webview_evaluateJavaScript_completionHandler_ js_saved_info
    else ret tt
  else ret tt.

(** Handler for capturing a click-and-drag event when not already the key
    window.  Returns the event to pass it along, [None] to consume it. *)
Definition handleLocalMouseEvent (event : NSEvent) (now : string)
  : M (option NSEvent) :=
  match ev_window event with
  | Some overlay_window =>
      match hitTest event with
      | Some drag_area =>
          showWindow_ None now ;;
          window_performWindowDragWithEvent_ event ;;
          ret None
      | _ => ret (Some event)
      end
  | _ => ret (Some event)
  end.

(** Handler for when the window resizes (adjusts the drag area). *)
Definition windowDidResize_ : M unit :=
  bounds <- contentView_bounds ;;
  let w := size_width bounds in
  let h := size_height bounds in
  DragArea.setFrame_ (NSMakeRect 0 (h - DRAG_AREA_HEIGHT) w DRAG_AREA_HEIGHT) ;;
  webview_setFrame_ (NSMakeRect 0 0 w (h - DRAG_AREA_HEIGHT)).

(** Handler for setting the background color based on the web page
    background color. *)
Definition userContentController_didReceiveScriptMessage_
  (message : WKScriptMessage) : M unit :=
  if msg_name message =? "backgroundColorHandler" then
    let bg_color_str := msg_body message in
    if Py.startswith "rgb" bg_color_str
       && Py.contains "(" bg_color_str
       && Py.contains ")" bg_color_str
    then
      i <- index_of "(" bg_color_str ;;
      j <- index_of ")" bg_color_str ;;
      rgb_values <- floats (Py.split "," (Py.slice (i + 1) j bg_color_str)) ;;
      rgb <- unpack3 (List.map (fun val => Py.div val 255) (firstn 3 rgb_values)) ;;
      let '(r, g, b) := rgb in
      DragArea.setBackgroundColor_
        {| redComponent := r; greenComponent := g; blueComponent := b;
           alphaComponent := Py.Fin 1 |}
    else ret tt
  else if msg_name message =? "debugLogger" then
    print ("[JS DEBUG] " ++ msg_body message)
  else ret tt.

(** Logic for checking what color the logo in the status bar should be. *)
Definition updateStatusItemImage : M unit :=
  modify (with_status_item (fun i =>
    {| status_menu := status_menu i;
       status_image :=
         Some (if effectiveAppearance_dark i then logo_white else logo_black);
       effectiveAppearance_dark := effectiveAppearance_dark i |})).

(** [context_matches] is [context == STATUS_ITEM_CONTEXT]. *)
Definition observeValueForKeyPath_ofObject_change_context_
  (keyPath : string) (context_matches : bool) : M unit :=
  if context_matches && (keyPath =? "effectiveAppearance")
  then updateStatusItemImage else ret tt.

Definition appearanceDidChange_ : M unit := updateStatusItemImage.

(** WKNavigationDelegate: called when navigation finishes. *)
Definition webView_didFinishNavigation_ : M unit :=
  print "[DEBUG] Navigation finished, scheduling focus timer" ;;
  NSTimer_scheduledTimer (1 # 10) "_focusPromptTimerFired:" false.

(** Helper called by timer. *)
Definition _focusPromptTimerFired_ (now : string) : M unit :=
  print "[DEBUG] Focus timer fired after navigation" ;;
  _focus_prompt_area now.

(** Monitor the event tap and re-enable it if it gets disabled. *)
Definition monitorEventTap_ : M unit :=
  t <- gets (fun s => event_tap (tap s)) ;;
  match t with
  | Some (Some port) =>
      enabled <- CGEventTapIsEnabled_ port ;;
      if negb enabled then
        print "Event tap was disabled, re-enabling..." ;;
        CGEventTapEnable_ port true
      else ret tt
  | _ => ret tt
  end.

(** The status bar menu, in the order the items are added. *)
Definition menu_items : list NSMenuItem :=
  [ {| item_title := "Show " ++ APP_TITLE; item_action := "showWindow:";
       item_keyEquivalent := ""; item_target := target_self |};
    {| item_title := "Hide " ++ APP_TITLE; item_action := "hideWindow:";
       item_keyEquivalent := "h"; item_target := target_self |};
    {| item_title := "Home"; item_action := "goToWebsite:";
       item_keyEquivalent := "g"; item_target := target_self |};
    {| item_title := "Clear Web Cache"; item_action := "clearWebViewData:";
       item_keyEquivalent := ""; item_target := target_self |};
    {| item_title := "Set New Trigger"; item_action := "setTrigger:";
       item_keyEquivalent := ""; item_target := target_self |};
    {| item_title := "Install Autolauncher"; item_action := "install:";
       item_keyEquivalent := ""; item_target := target_self |};
    {| item_title := "Uninstall Autolauncher"; item_action := "uninstall:";
       item_keyEquivalent := ""; item_target := target_self |};
    {| item_title := "Quit"; item_action := "terminate:";
       item_keyEquivalent := "q"; item_target := target_NSApp |} ].

(** The window of the launch: created at a fixed rectangle, floating, with
    the autosave name set; setting the name moves the window to the frame
    stored under it, when there is one. *)
Definition create_window : M unit :=
  saved <- gets (fun s => saved_frame (persisted s)) ;;
  modify (with_window (fun _ =>
    {| frame := match saved with
                | Some r => r
                | None => NSMakeRect 500 200 970 750
                end;
       floating := true;
       frameAutosaveName := Some FRAME_SAVE_NAME;
       delegate := false;
       isKeyWindow := false;
       isOnScreen := false |})).

(** The event tap of the launch.  [created] is what [CGEventTapCreate]
    returns: a port, or [None] when the system refuses the tap. *)
Definition create_event_tap (created : option CFMachPort) : M unit :=
  modify (with_tap (fun e =>
    {| event_tap := Some created; event_tap_source := event_tap_source e;
       main_run_loop_sources := main_run_loop_sources e;
       tap_enabled := tap_enabled e |})) ;;
  match created with
  | Some port =>
      modify (with_tap (fun e =>
        {| event_tap := event_tap e;
           event_tap_source := Some (RunLoopSource port);
           main_run_loop_sources :=
             (main_run_loop_sources e ++ [RunLoopSource port])%list;
           tap_enabled := tap_enabled e |})) ;;
      CGEventTapEnable_ port true ;;
      NSTimer_scheduledTimer 1 "monitorEventTap:" true ;;
      print "Event tap successfully integrated into main run loop"
  | None =>
      print "Failed to create event tap. Check Accessibility permissions."
  end.

(** The main application setup.  [stored] is the trigger
    [load_custom_launcher_trigger()] finds in the user's configuration, if
    any.  Calls that only set the look of an object (window level and
    collection behaviour, user agent, opacity, corner radius, the close
    button's image, the logos) have no counterpart in the state. *)
Definition applicationDidFinishLaunching_
  (created : option CFMachPort) (stored : option Trigger) (now : string)
  : M unit :=
  (* Run as accessory app *)
  modify (with_NSApp (fun a =>
    {| accessory := true; isActive := isActive a; isHidden := isHidden a;
       isTerminated := isTerminated a |})) ;;
  (* Create a borderless, floating, resizable window *)
  create_window ;;
  (* Create the webview for the main application. *)
  webview_setFrame_ (NSMakeRect 0 0 970 750) ;;
  (* Set up drag area (top sliver, full width) *)
  content_bounds <- contentView_bounds ;;
  DragArea.initWithFrame_
    (NSMakeRect 0 (size_height content_bounds - DRAG_AREA_HEIGHT)
       (size_width content_bounds) DRAG_AREA_HEIGHT) ;;
  (* Add close button to the drag area *)
  modify (with_views (fun v =>
    {| drag_area_frame := drag_area_frame v;
       drag_area_backgroundColor := drag_area_backgroundColor v;
       close_button_frame := NSMakeRect 5 5 20 20;
       close_button_action := "hideWindow:";
       webview_frame := webview_frame v |})) ;;
  (* Update the webview sizing and insert it below drag area. *)
  webview_setFrame_
    (NSMakeRect 0 0 (size_width content_bounds)
       (size_height content_bounds - DRAG_AREA_HEIGHT)) ;;
  (* Contact the target website. *)
  webview_loadRequest_ WEBSITE ;;
  (* Navigation delegate, script message handlers, user script *)
  modify (with_web (fun _ =>
    {| navigationDelegate := true;
       scriptMessageHandlers := ["backgroundColorHandler"; "debugLogger"];
       userScripts := [js_monitor] |})) ;;
  (* Create status bar item with logo *)
  updateStatusItemImage ;;
  modify (with_status_item (fun i =>
    {| status_menu := menu_items; status_image := status_image i;
       effectiveAppearance_dark := effectiveAppearance_dark i |})) ;;
  (* Resize observer and local mouse monitor *)
  modify (with_observers true true) ;;
  (* Load the custom launch trigger if the user set it. *)
  modify (with_persisted (fun p =>
    {| saved_frame := saved_frame p;
       launcher_trigger := match stored with
                           | Some t => t
                           | None => launcher_trigger p
                           end |})) ;;
  (* Set the delegate of the window to this parent application *)
  modify (with_window (fun w =>
    {| frame := frame w; floating := floating w;
       frameAutosaveName := frameAutosaveName w; delegate := true;
       isKeyWindow := isKeyWindow w; isOnScreen := isOnScreen w |})) ;;
  (* Create the event tap for key-down events *)
  create_event_tap created ;;
  (* Make sure this window is shown and focused. *)
  showWindow_ None now.

End WithConstants.

End AppDelegate.

(** ** class AppWindow *)

Module AppWindow.

(** Explicitly allow key window status. *)
Definition canBecomeKeyWindow : bool := true.

(** Required to capture "Command+..." sequences. *)
Definition keyDown_ (event : NSEvent) : M unit :=
  d <- gets (fun s => delegate (window s)) ;;
  if d then AppDelegate.keyDown_ event else ret tt.

End AppWindow.

(** A process before the launch: nothing of the delegate exists yet.
    [saved] is the frame the user defaults hold from an earlier run and
    [dark] the appearance of the menu bar. *)
Definition before_launch (saved : option NSRect) (dark : bool) (built_in : Trigger)
  : state :=
  {| NSApp := {| accessory := false; isActive := false; isHidden := false;
                 isTerminated := false |};
     window := {| frame := NSMakeRect 0 0 0 0; floating := false;
                  frameAutosaveName := None; delegate := false;
                  isKeyWindow := false; isOnScreen := false |};
     views := {| drag_area_frame := NSMakeRect 0 0 0 0;
                 drag_area_backgroundColor := None;
                 close_button_frame := NSMakeRect 0 0 0 0;
                 close_button_action := "";
                 webview_frame := NSMakeRect 0 0 0 0 |};
     web := {| navigationDelegate := false; scriptMessageHandlers := [];
               userScripts := [] |};
     status_item := {| status_menu := []; status_image := None;
                       effectiveAppearance_dark := dark |};
     tap := {| event_tap := None; event_tap_source := None;
               main_run_loop_sources := []; tap_enabled := false |};
     timers := [];
     resize_observer := false;
     local_mouse_monitor := false;
     persisted := {| saved_frame := saved; launcher_trigger := built_in |};
     stdout := [];
     calls := [] |}.

(** ** The run loop

    The handlers run one at a time on the main run loop, each in answer to
    one event.  An event carries what the system answers while the handler
    runs: the reading of the clock, and what a start-up helper returns and
    writes to the output. *)

Module RunLoop.

Record answers : Type := {
  now : string;
  startup_ok : bool;
  startup_log : list string
}.

Inductive event : Type :=
| MenuItemChosen (i : nat)                  (* i-th item of the status menu *)
| CloseButtonPressed
| TimerFired (i : nat)                      (* i-th timer of the run loop *)
| NavigationFinished
| ScriptMessageReceived (m : WKScriptMessage)
| KeyDown (e : NSEvent)
| LeftMouseDown (e : NSEvent)
| WindowResized (r : NSRect)                (* the window gets the frame r *)
| EventTapDisabled                          (* the system disables the tap *)
| AppearanceChanged (dark : bool)
| WebsiteDataRemoved.

(** The list without its i-th element. *)
Fixpoint remove_nth {A} (i : nat) (l : list A) : list A :=
  match l, i with
  | [], _ => []
  | _ :: l', O => l'
  | x :: l', S i' => x :: remove_nth i' l'
  end.

Section WithConstants.

Context {K : Constants}.

(** Sending the action [sel] to its target. *)
Definition performSelector (target : msg_target) (sel : string)
  (sender : option string) (a : answers) : M unit :=
  match target with
  | target_NSApp =>
      if sel =? "terminate:" then NSApp_terminate_ else ret tt
  | target_self =>
      if sel =? "showWindow:" then AppDelegate.showWindow_ sender (now a)
      else if sel =? "hideWindow:" then AppDelegate.hideWindow_ sender
      else if sel =? "goToWebsite:" then AppDelegate.goToWebsite_ sender
      else if sel =? "clearWebViewData:" then AppDelegate.clearWebViewData_ sender
      else if sel =? "setTrigger:" then AppDelegate.setTrigger_ sender
      else if sel =? "install:" then
        AppDelegate.install_ sender (startup_ok a) (startup_log a)
      else if sel =? "uninstall:" then
        AppDelegate.uninstall_ sender (startup_ok a) (startup_log a)
      else if sel =? "monitorEventTap:" then AppDelegate.monitorEventTap_
      else if sel =? "_focusPromptTimerFired:" then
        AppDelegate._focusPromptTimerFired_ (now a)
      else if sel =? "windowDidResize:" then AppDelegate.windowDidResize_
      else ret tt
  end.

(** A timer fires: a timer that does not repeat leaves the run loop, then
    the delegate receives the timer's selector. *)
Definition fire (i : nat) (a : answers) : M unit :=
  ts <- gets timers ;;
  match nth_error ts i with
  | None => ret tt
  | Some t =>
      (if repeats t then ret tt else modify (with_timers (remove_nth i))) ;;
      performSelector target_self (timer_selector t) None a
  end.

(** The system gives the window the frame [r]: the frame is stored under
    the autosave name, the web view follows (its autoresizing mask makes
    width and height flexible), and the observers of the resize
    notification run. *)
Definition resize (r : NSRect) : M unit :=
  old <- gets (fun s => frame (window s)) ;;
  modify (with_window (fun win =>
    {| frame := r; floating := floating win;
       frameAutosaveName := frameAutosaveName win; delegate := delegate win;
       isKeyWindow := isKeyWindow win; isOnScreen := isOnScreen win |})) ;;
  named <- gets (fun s => frameAutosaveName (window s)) ;;
  (match named with
   | Some _ =>
       modify (with_persisted (fun p =>
         {| saved_frame := Some r; launcher_trigger := launcher_trigger p |}))
   | None => ret tt
   end) ;;
  wv <- gets (fun s => webview_frame (views s)) ;;
  webview_setFrame_
    (NSMakeRect (origin_x wv) (origin_y wv)
       (size_width wv + (size_width r - size_width old))
       (size_height wv + (size_height r - size_height old))) ;;
  observed <- gets resize_observer ;;
  if observed then AppDelegate.windowDidResize_ else ret tt.

Definition dispatch (ev : event) (a : answers) : M unit :=
  match ev with
  | MenuItemChosen i =>
      items <- gets (fun s => status_menu (status_item s)) ;;
      match nth_error items i with
      | Some item =>
          performSelector (item_target item) (item_action item)
            (Some (item_title item)) a
      | None => ret tt
      end
  | CloseButtonPressed =>
      action <- gets (fun s => close_button_action (views s)) ;;
      performSelector target_self action (Some "NSButton") a
  | TimerFired i => fire i a
  | NavigationFinished =>
      d <- gets (fun s => navigationDelegate (web s)) ;;
      if d then AppDelegate.webView_didFinishNavigation_ else ret tt
  | ScriptMessageReceived m =>
      AppDelegate.userContentController_didReceiveScriptMessage_ m
  | KeyDown e =>
      key <- gets (fun s => isKeyWindow (window s)) ;;
      if key then AppWindow.keyDown_ e else ret tt
  | LeftMouseDown e =>
      monitored <- gets local_mouse_monitor ;;
      if monitored
      then AppDelegate.handleLocalMouseEvent e (now a) ;; ret tt
      else ret tt
  | WindowResized r => resize r
  | EventTapDisabled =>
      modify (with_tap (fun e =>
        {| event_tap := event_tap e; event_tap_source := event_tap_source e;
           main_run_loop_sources := main_run_loop_sources e;
           tap_enabled := false |}))
  | AppearanceChanged dark =>
      modify (with_status_item (fun i =>
        {| status_menu := status_menu i; status_image := status_image i;
           effectiveAppearance_dark := dark |})) ;;
      AppDelegate.observeValueForKeyPath_ofObject_change_context_
        "effectiveAppearance" true
  | WebsiteDataRemoved => AppDelegate.clearWebViewData_completion
  end.

(** One turn of the run loop.  An exception that escapes a handler ends the
    handler; the loop goes on with the state the handler left. *)
Definition step (ev : event) (a : answers) (s : state) : state :=
  final (dispatch ev a s).

(** The states the delegate can be in: the one the launch leaves when it
    starts from [before_launch], and the ones events lead to from there.
    [created] is what [CGEventTapCreate] returned at the launch. *)
Inductive reachable (created : option CFMachPort) : state -> Prop :=
| reach_launch stored t0 saved dark built_in :
    reachable created
      (final (AppDelegate.applicationDidFinishLaunching_ created stored t0
                (before_launch saved dark built_in)))
| reach_step s ev a :
    reachable created s ->
    reachable created (step ev a s).

End WithConstants.

End RunLoop.

(** Concrete constants and a concrete start, for the examples. *)
Definition example_constants : Constants :=
  {| APP_TITLE := "Gemini"; DRAG_AREA_HEIGHT := 30;
     FRAME_SAVE_NAME := "GeminiWindowFrame";
     WEBSITE := "https://gemini.google.com" |}.

Definition example_start : state :=
  before_launch None false {| trigger_flags := 524288; trigger_key := 49 |}.

Definition example_launched : state :=
  final (@AppDelegate.applicationDidFinishLaunching_ example_constants
           (Some (MachPort 1)) None "0.0" example_start).

(** ** The form [rgb(r, g, b[, a])]

    The strings the spec calls valid colour strings: the function name, an
    opening parenthesis, three components and possibly a fourth, separated
    by commas, and a closing parenthesis.  Each of the three components is
    a string Python reads as a finite number (blanks around it are allowed,
    as browsers write them); the fourth is any string Python reads as a
    float.  CSS names the function [rgb] or [rgba]. *)

(** [float(s)] is the finite double [x]. *)
Definition numeric (s : string) (x : Q) : Prop :=
  Py.float_of_string s = Some (Py.Fin x).

Inductive rgb_form : string -> Q -> Q -> Q -> Prop :=
| rgb_three (fn sr sg sb : string) (r g b : Q) :
    fn = "rgb" \/ fn = "rgba" ->
    numeric sr r -> numeric sg g -> numeric sb b ->
    rgb_form (fn ++ "(" ++ sr ++ "," ++ sg ++ "," ++ sb ++ ")") r g b
| rgb_four (fn sr sg sb sa : string) (r g b : Q) (a : Py.float) :
    fn = "rgb" \/ fn = "rgba" ->
    numeric sr r -> numeric sg g -> numeric sb b ->
    Py.float_of_string sa = Some a ->
    rgb_form (fn ++ "(" ++ sr ++ "," ++ sg ++ "," ++ sb ++ "," ++ sa ++ ")") r g b.

(** The test the handler applies before it reads a colour string. *)
Definition passes_guard (body : string) : bool :=
  Py.startswith "rgb" body && Py.contains "(" body && Py.contains ")" body.

(** The drag area's colour set to [c], everything else as in [s]. *)
Definition with_drag_color (c : NSColor) (s : state) : state :=
  with_views (fun v =>
    {| drag_area_frame := drag_area_frame v;
       drag_area_backgroundColor := Some c;
       close_button_frame := close_button_frame v;
       close_button_action := close_button_action v;
       webview_frame := webview_frame v |}) s.

Definition color_message (body : string) : WKScriptMessage :=
  {| msg_name := "backgroundColorHandler"; msg_body := body |}.

(** A colour component [c] that stands for the channel [x] of the 0..255
    scale: between 0 and 1, and within the rounding of a double, [2^-53],
    of the exact quotient [x/255]. *)
Definition normalized (x c : Q) : Prop :=
  0 <= c <= 1 /\ x / 255 - (1 # 2 ^ 53) <= c <= x / 255 + (1 # 2 ^ 53).

(** ** Vocabulary of the properties *)

(** The characters that delimit a colour string, and the question mark
    [float] puts for a character it cannot read: no number holds any of
    them. *)
Definition delimiter (c : ascii) : bool :=
  Ascii.eqb c "," || Ascii.eqb c "(" || Ascii.eqb c ")" || Ascii.eqb c "?".

Fixpoint plain (s : string) : bool :=
  match s with
  | EmptyString => true
  | String c s' => negb (delimiter c) && plain s'
  end.

Fixpoint count (c : ascii) (s : string) : nat :=
  match s with
  | EmptyString => 0
  | String d s' => (if Ascii.eqb c d then 1 else 0) + count c s'
  end.

(** The timer the launch installs for the liveness check of the tap. *)
Definition tap_monitor_timer : NSTimer :=
  {| timeInterval := 1; timer_selector := "monitorEventTap:"; repeats := true |}.

(** The timer a finished navigation installs. *)
Definition focus_timer : NSTimer :=
  {| timeInterval := 1 # 10; timer_selector := "_focusPromptTimerFired:";
     repeats := false |}.

Section Layout.

Context {K : Constants}.

(** The drag area is the strip of height [DRAG_AREA_HEIGHT] at the top of
    the content view, over its full width; the web view is the rest of the
    content view, below it.  (The origin of a view is its lower left
    corner.) *)
Definition layout (s : state) : Prop :=
  let w := size_width (frame (window s)) in
  let h := size_height (frame (window s)) in
  drag_area_frame (views s) = NSMakeRect 0 (h - DRAG_AREA_HEIGHT) w DRAG_AREA_HEIGHT /\
  webview_frame (views s) = NSMakeRect 0 0 w (h - DRAG_AREA_HEIGHT).

(** What holds of the delegate from the launch on. *)
Definition launched (created : option CFMachPort) (s : state) : Prop :=
  event_tap (tap s) = Some created /\
  (forall port, created = Some port -> In tap_monitor_timer (timers s)) /\
  (created = None ->
   forall t, In t (timers s) -> timer_selector t <> "monitorEventTap:") /\
  resize_observer s = true /\
  delegate (window s) = true /\
  status_menu (status_item s) = AppDelegate.menu_items /\
  navigationDelegate (web s) = true /\
  layout s.

End Layout.

Ltac case_if :=
  match goal with
  | |- context [if ?b then _ else _] => destruct b eqn:?
  end.

Ltac run_handler :=
  cbv [RunLoop.performSelector
       AppDelegate.showWindow_ AppDelegate.hideWindow_ AppDelegate.goToWebsite_
       AppDelegate.clearWebViewData_ AppDelegate.clearWebViewData_completion
       AppDelegate.setTrigger_ AppDelegate.install_ AppDelegate.uninstall_
       AppDelegate._focus_prompt_area AppDelegate._focusPromptTimerFired_
       AppDelegate.windowDidResize_ AppDelegate.monitorEventTap_
       AppDelegate.webView_didFinishNavigation_ AppDelegate.keyDown_
       AppDelegate.handleLocalMouseEvent AppDelegate.updateStatusItemImage
       AppDelegate.observeValueForKeyPath_ofObject_change_context_
       AppWindow.keyDown_ DragArea.setFrame_ DragArea.initWithFrame_
       DragArea.mouseDown_ DragArea.setBackgroundColor_
       window_makeKeyAndOrderFront_ NSApp_activateIgnoringOtherApps_
       NSApp_hide_ NSApp_terminate_ webview_evaluateJavaScript_completionHandler_
       webview_loadRequest_ webview_setFrame_ window_performWindowDragWithEvent_
       firstResponder_send contentView_bounds content_bounds CGEventTapEnable_
       CGEventTapIsEnabled_ NSTimer_scheduledTimer startup_helper print
       record_call bind ret gets modify final].

(** Everything of the state but the output and the record of calls. *)
Definition process_state (s : state) :=
  (NSApp s, window s, views s, web s, status_item s, tap s, timers s,
   resize_observer s, local_mouse_monitor s, persisted s).

(** The window is on screen: in the screen list of an application that is
    not hidden. *)
Definition shown (s : state) : bool :=
  isOnScreen (window s) && negb (isHidden (NSApp s)).

(** Everything of the process state but the application and the window. *)
Definition surroundings (s : state) :=
  (views s, web s, status_item s, tap s, timers s, resize_observer s,
   local_mouse_monitor s, persisted s).

(** The application of [s], hidden: neither active nor shown, and as alive
    as it was. *)
Definition hidden_application (s : state) : NSApplication :=
  {| accessory := accessory (NSApp s); isActive := false; isHidden := true;
     isTerminated := isTerminated (NSApp s) |}.

(** The window of [s], no longer key, and otherwise as it was: in the screen
    list if it was, with its frame, level, autosave name and delegate. *)
Definition resigned_window (s : state) : AppWindowState :=
  {| frame := frame (window s); floating := floating (window s);
     frameAutosaveName := frameAutosaveName (window s);
     delegate := delegate (window s);
     isKeyWindow := false; isOnScreen := isOnScreen (window s) |}.

(** The application of [s], terminated. *)
Definition terminated_application (s : state) : NSApplication :=
  {| accessory := accessory (NSApp s); isActive := isActive (NSApp s);
     isHidden := isHidden (NSApp s); isTerminated := true |}.

Definition example_click : NSEvent :=
  {| ev_window := Some overlay_window;
     locationInWindow := {| pt_x := 400; pt_y := 740 |};
     hitTest := Some drag_area;
     modifierFlags := 0;
     charactersIgnoringModifiers := "" |}.

Definition example_command_h : NSEvent :=
  {| ev_window := Some overlay_window;
     locationInWindow := {| pt_x := 0; pt_y := 0 |};
     hitTest := None;
     modifierFlags := 1048576;
     charactersIgnoringModifiers := "h" |}.

(** [NSPointInRect]. *)
Definition NSPointInRect (p : NSPoint) (r : NSRect) : Prop :=
  origin_x r <= pt_x p /\ pt_x p < origin_x r + size_width r /\
  origin_y r <= pt_y p /\ pt_y p < origin_y r + size_height r.

(** *** Vocabulary of the further properties *)

(** The decimal numeral of a natural number, as a browser writes a colour
    channel. *)
Definition dec (n : nat) : string := NilEmpty.string_of_uint (Nat.to_uint n).

(** The colour string a browser computes for three 8-bit channels. *)
Definition css_rgb (r g b : nat) : string :=
  "rgb(" ++ dec r ++ ", " ++ dec g ++ ", " ++ dec b ++ ")".

(** The colour string a browser computes for three 8-bit channels and an
    alpha written as [alpha]. *)
Definition css_rgba (r g b : nat) (alpha : string) : string :=
  "rgba(" ++ dec r ++ ", " ++ dec g ++ ", " ++ dec b ++ ", " ++ alpha ++ ")".

(** Equality of floats as the model holds them (same numerator and
    denominator). *)
Definition float_eqb (x y : Py.float) : bool :=
  match x, y with
  | Py.Fin p, Py.Fin q => Z.eqb (Qnum p) (Qnum q) && Pos.eqb (Qden p) (Qden q)
  | Py.Inf a, Py.Inf b => Bool.eqb a b
  | Py.NaN, Py.NaN => true
  | Py.NegZero, Py.NegZero => true
  | _, _ => false
  end.

(** A double of the Standard Library's specification of IEEE 754 arithmetic
    ([SpecFloat], here with the precision 53 and the exponent bound 1024 of
    binary64), as a float of this development. *)
Definition of_spec_float (x : SpecFloat.spec_float) : Py.float :=
  match x with
  | SpecFloat.S754_zero false => Py.Fin 0
  | SpecFloat.S754_zero true => Py.NegZero
  | SpecFloat.S754_infinity negative => Py.Inf negative
  | SpecFloat.S754_nan => Py.NaN
  | SpecFloat.S754_finite negative m e =>
      let v := Qred (inject_Z (Zpos m) * 2 ^ e) in
      Py.Fin (if negative then - v else v)
  end.

(** The integer [n] as a binary64 number of that specification. *)
Definition binary64 (n : Z) : SpecFloat.spec_float :=
  SpecFloat.binary_normalize 53 1024 n 0 false.

(** The pieces the handler converts to floats: what stands between the first
    opening and the first closing parenthesis, cut at the commas. *)
Definition color_pieces (i j : nat) (body : string) : list string :=
  Py.split "," (Py.slice (i + 1) j body).

(** The colour of three floats on the 0..255 scale, opaque. *)
Definition opaque_color (r g b : Py.float) : NSColor :=
  {| redComponent := Py.div r 255; greenComponent := Py.div g 255;
     blueComponent := Py.div b 255; alphaComponent := Py.Fin 1 |}.

(** A timer of the liveness check, by its selector. *)
Definition is_monitor (t : NSTimer) : bool :=
  timer_selector t =? "monitorEventTap:".

(** Showing and hiding, as a sequence of actions. *)
Inductive visibility_action : Type :=
| Show (sender : option string) (now : string)
| Hide (sender : option string).

Definition act (v : visibility_action) (s : state) : state :=
  match v with
  | Show sender now => final (AppDelegate.showWindow_ sender now s)
  | Hide sender => final (AppDelegate.hideWindow_ sender s)
  end.

Definition act_all (vs : list visibility_action) (s : state) : state :=
  fold_left (fun st v => act v st) vs s.

Definition example_command_q : NSEvent :=
  {| ev_window := Some overlay_window;
     locationInWindow := {| pt_x := 0; pt_y := 0 |};
     hitTest := None;
     modifierFlags := 1048576;
     charactersIgnoringModifiers := "q" |}.

Section Steady.

Context {K : Constants}.

(** The calls the delegate may make, given what [CGEventTapCreate] returned
    at the launch: every [loadRequest] is for [WEBSITE], and the tap is
    only ever enabled, and only the tap of the launch. *)
Definition allowed_call (created : option CFMachPort) (c : call) : Prop :=
  match c with
  | loadRequest url => url = WEBSITE
  | CGEventTapEnable port enable => enable = true /\ created = Some port
  | _ => True
  end.

(** The logo that fits the appearance of the menu bar. *)
Definition fitting_logo (dark : bool) : logo :=
  if dark then logo_white else logo_black.

(** What holds of the delegate from the launch on, beyond [launched]. *)
Definition settled (created : option CFMachPort) (s : state) : Prop :=
  close_button_action (views s) = "hideWindow:" /\
  Forall (fun t => t = tap_monitor_timer \/ t = focus_timer) (timers s) /\
  filter is_monitor (timers s)
  = match created with Some _ => [tap_monitor_timer] | None => [] end /\
  status_image (status_item s)
  = Some (fitting_logo (effectiveAppearance_dark (status_item s))) /\
  event_tap_source (tap s) = option_map RunLoopSource created /\
  main_run_loop_sources (tap s)
  = match created with Some port => [RunLoopSource port] | None => [] end /\
  Forall (allowed_call created) (calls s).

Definition steady (created : option CFMachPort) (s : state) : Prop :=
  launched created s /\ settled created s.

End Steady.

(** * Properties *)

(** ** Strings *)

Lemma append_assoc (a b c : string) : (a ++ b) ++ c = a ++ b ++ c.
Proof.
  induction a as [|x a IH]; simpl; [reflexivity|]. now rewrite IH.
Qed.

Lemma plain_app a b : plain (a ++ b) = plain a && plain b.
Proof.
  induction a as [|c a IH]; simpl; [reflexivity|].
  now rewrite IH, andb_assoc.
Qed.

Lemma plain_contains c s :
  delimiter c = true -> plain s = true -> Py.contains c s = false.
Proof.
  intros Hc. induction s as [|d s IH]; simpl; [reflexivity|].
  intros H. apply andb_true_iff in H as [Hd Hs].
  destruct (Ascii.eqb_spec c d) as [->|_].
  - rewrite Hc in Hd. discriminate.
  - now apply IH.
Qed.

Lemma isspace_plain c : Py.isspace c = true -> delimiter c = false.
Proof.
  destruct c as [[] [] [] [] [] [] [] []]; vm_compute; congruence.
Qed.

Lemma isdigit_plain c : Py.isdigit c = true -> delimiter c = false.
Proof.
  destruct c as [[] [] [] [] [] [] [] []]; vm_compute; congruence.
Qed.

Lemma lower_plain c : delimiter (Py.lower c) = delimiter c.
Proof.
  destruct c as [[] [] [] [] [] [] [] []]; vm_compute; congruence.
Qed.

Lemma lstrip_plain s : plain (Py.lstrip s) = plain s.
Proof.
  induction s as [|c s IH]; simpl; [reflexivity|].
  destruct (Py.isspace c) eqn:E; [|reflexivity].
  now rewrite IH, (isspace_plain _ E).
Qed.

Lemma rstrip_plain s : plain (Py.rstrip s) = plain s.
Proof.
  induction s as [|c s IH]; simpl; [reflexivity|].
  destruct (Py.rstrip s) as [|d t] eqn:E.
  - rewrite <- IH. simpl.
    destruct (Py.isspace c) eqn:Ec; simpl.
    + now rewrite (isspace_plain _ Ec).
    + now rewrite andb_true_r.
  - rewrite <- IH. reflexivity.
Qed.

Lemma drop_underscores_plain s : forall prev u,
  Py.drop_underscores prev s = Some u -> plain u = plain s.
Proof.
  induction s as [|c s IH]; intros prev u; simpl.
  - destruct prev as [p|]; [destruct (Ascii.eqb_spec p "_") as [->|N]|].
    + discriminate.
    + assert (H : forall A (x y : A),
                 match p with "_"%char => x | _ => y end = y).
      { intros A x y.
        destruct p as [[] [] [] [] [] [] [] []];
          try reflexivity; exfalso; apply N; reflexivity. }
      rewrite H. now intros [= <-].
    + now intros [= <-].
  - destruct (Ascii.eqb_spec c "_") as [->|N].
    + destruct prev as [p|]; [|discriminate].
      destruct (Py.isdigit p); [|discriminate].
      intros H. now rewrite (IH _ _ H).
    + assert (K : forall r : option string,
                 option_map (String c) r = Some u ->
                 exists u', r = Some u' /\ u = String c u').
      { intros [u'|]; simpl; [|discriminate].
        intros [= <-]. now exists u'. }
      assert (G : option_map (String c) (Py.drop_underscores (Some c) s) = Some u
                  -> plain u = negb (delimiter c) && plain s).
      { intros H. apply K in H as (u' & Hu' & ->). simpl.
        now rewrite (IH _ _ Hu'). }
      destruct prev as [p|]; [|exact G].
      destruct p as [[] [] [] [] [] [] [] []]; try exact G.
      destruct (Py.isdigit c); [exact G|discriminate].
Qed.

Lemma sign_plain s : plain (snd (Py.sign s)) = true -> plain s = true.
Proof.
  destruct s as [|c s]; [easy|].
  destruct c as [[] [] [] [] [] [] [] []]; simpl; easy.
Qed.

Lemma lowercase_plain s : plain (Py.lowercase s) = plain s.
Proof.
  induction s as [|c s IH]; simpl; [reflexivity|].
  now rewrite lower_plain, IH.
Qed.

Lemma digits_plain s : forall acc n,
  plain s = plain (snd (Py.digits acc n s)).
Proof.
  induction s as [|c s IH]; intros acc n; simpl; [reflexivity|].
  destruct (Py.isdigit c) eqn:E; [|reflexivity].
  now rewrite (isdigit_plain _ E), <- IH.
Qed.

Lemma exponent_plain s e : Py.exponent s = Some e -> plain s = true.
Proof.
  destruct s as [|c s]; [easy|]. unfold Py.exponent.
  destruct (Ascii.eqb_spec (Py.lower c) "e") as [E|]; [|discriminate].
  destruct (Py.sign s) as [neg t] eqn:Es.
  pose proof (digits_plain t 0 0) as D.
  destruct (Py.digits 0 0 t) as [[v k] rest].
  destruct k; [discriminate|]. destruct rest; [|discriminate].
  intros _. simpl in D. simpl.
  rewrite <- lower_plain, E. simpl.
  apply sign_plain. now rewrite Es.
Qed.

Lemma decimal_plain neg s v : Py.decimal neg s = Some v -> plain s = true.
Proof.
  unfold Py.decimal.
  pose proof (digits_plain s 0 0) as D1.
  destruct (Py.digits 0 0 s) as [[ip ni] s1]. simpl in D1.
  assert (H : forall m nf s2,
            match (ni + nf)%nat with
            | O => None
            | S _ =>
                match Py.exponent s2 with
                | None => None
                | Some e =>
                    Some (Py.round neg (inject_Z m * 10 ^ (e - Z.of_nat nf)))
                end
            end = Some v -> plain s2 = true).
  { intros m nf s2. destruct (ni + nf)%nat; [discriminate|].
    destruct (Py.exponent s2) eqn:E; [|discriminate].
    intros _. eapply exponent_plain; eauto. }
  destruct s1 as [|c t].
  - intros _. now rewrite D1.
  - destruct (Ascii.eqb_spec c ".") as [->|N].
    + pose proof (digits_plain t ip 0) as D2.
      destruct (Py.digits ip 0 t) as [[m nf] s2]. simpl in D2.
      intros E. apply H in E. rewrite D1. simpl. now rewrite D2.
    + intros E. rewrite D1.
      apply (H ip 0%nat (String c t)).
      destruct c as [[] [] [] [] [] [] [] []]; try exact E.
      exfalso. apply N. reflexivity.
Qed.

Lemma delimiter_ascii c : delimiter c = true -> (N_of_ascii c <? 127)%N = true.
Proof.
  destruct c as [[] [] [] [] [] [] [] []]; vm_compute; congruence.
Qed.

Lemma transformed_plain cp rest :
  plain (Py.transformed cp rest) = true -> plain rest = true.
Proof.
  unfold Py.transformed.
  destruct (Py.isspace_unicode cp); [now cbn|].
  destruct (Py.todecimal cp) as [d|]; [|discriminate].
  cbn [plain]. intros H. now apply andb_true_iff in H.
Qed.

(** What [float] makes of the characters beyond ASCII holds a delimiter
    wherever the string does. *)
Lemma to_ascii_plain s : forall pending,
  plain (Py.to_ascii pending s) = true -> plain s = true.
Proof.
  induction s as [|c s IH]; intros pending; [reflexivity|].
  cbn [Py.to_ascii plain].
  destruct (delimiter c) eqn:D.
  - pose proof (delimiter_ascii c D) as A.
    assert (B : forall lo hi, ((lo <=? N_of_ascii c) && (N_of_ascii c <=? hi))%N = true
                              -> (128 <= lo)%N -> False).
    { intros lo hi H L. apply andb_true_iff in H as [H _].
      apply N.leb_le in H. apply N.ltb_lt in A. lia. }
    destruct pending as [[[bits n] least]|].
    + destruct ((128 <=? N_of_ascii c) && (N_of_ascii c <=? 191))%N eqn:E;
        [|discriminate].
      exfalso. apply (B _ _ E). lia.
    + rewrite A. cbn [plain]. rewrite D. discriminate.
  - cbn [negb andb].
    destruct pending as [[[bits n] least]|].
    + destruct ((128 <=? N_of_ascii c) && (N_of_ascii c <=? 191))%N;
        [|discriminate].
      destruct n as [|[|n]]; try apply IH;
        (destruct (least <=? bits * 64 + (N_of_ascii c - 128))%N; [|discriminate]);
        intros H; apply transformed_plain in H; revert H; apply IH.
    + destruct (N_of_ascii c <? 127)%N.
      { cbn [plain]. rewrite D. cbn [negb andb]. apply IH. }
      repeat (match goal with
              | |- context [if ?b then _ else _] => destruct b
              end; [apply IH|]).
      discriminate.
Qed.

(** A string Python reads as a number holds no comma, no parenthesis and no
    question mark. *)
Lemma float_of_string_plain s v :
  Py.float_of_string s = Some v -> plain s = true.
Proof.
  unfold Py.float_of_string, Py.strip. intros H.
  apply (to_ascii_plain s None). revert H.
  generalize (Py.to_ascii None s). clear s. intros s.
  destruct (Py.drop_underscores None (Py.rstrip (Py.lstrip s))) as [u|] eqn:E;
    [|discriminate].
  apply drop_underscores_plain in E.
  rewrite rstrip_plain, lstrip_plain in E. rewrite <- E.
  destruct (Py.sign u) as [neg body] eqn:Es.
  intros H. apply sign_plain. rewrite Es. simpl.
  rewrite <- lowercase_plain.
  destruct (Py.lowercase body =? "inf") eqn:E1.
  { apply String.eqb_eq in E1. now rewrite E1. }
  destruct (Py.lowercase body =? "infinity") eqn:E2.
  { apply String.eqb_eq in E2. now rewrite E2. }
  destruct (Py.lowercase body =? "nan") eqn:E3.
  { apply String.eqb_eq in E3. now rewrite E3. }
  simpl in H. rewrite lowercase_plain. eapply decimal_plain; eauto.
Qed.

Lemma contains_app c a b :
  Py.contains c (a ++ b) = Py.contains c a || Py.contains c b.
Proof.
  induction a as [|d a IH]; simpl; [reflexivity|].
  now destruct (Ascii.eqb c d).
Qed.

Lemma contains_app_char c p r : Py.contains c (p ++ String c r) = true.
Proof.
  induction p as [|d p IH]; simpl.
  - now rewrite Ascii.eqb_refl.
  - now destruct (Ascii.eqb c d).
Qed.

Lemma index_app_char c p r :
  Py.contains c p = false ->
  Py.index c (p ++ String c r) = Some (String.length p).
Proof.
  induction p as [|d p IH]; simpl.
  - now rewrite Ascii.eqb_refl.
  - destruct (Ascii.eqb c d); [discriminate|].
    intros H. now rewrite (IH H).
Qed.

Lemma index_app_skip c p r n :
  Py.contains c p = false ->
  Py.index c r = Some n ->
  Py.index c (p ++ r) = Some (String.length p + n)%nat.
Proof.
  induction p as [|d p IH]; simpl; [easy|].
  destruct (Ascii.eqb c d); [discriminate|].
  intros H1 H2. now rewrite (IH H1 H2).
Qed.

Lemma substring_app_left a b : substring 0 (String.length a) (a ++ b) = a.
Proof.
  induction a as [|c a IH]; simpl.
  - now destruct b.
  - now rewrite IH.
Qed.

Lemma split_plain c s : Py.contains c s = false -> Py.split c s = [s].
Proof.
  induction s as [|d s IH]; simpl; [reflexivity|].
  destruct (Ascii.eqb c d); [discriminate|].
  intros H. now rewrite (IH H).
Qed.

Lemma split_app_char c p r :
  Py.contains c p = false ->
  Py.split c (p ++ String c r) = p :: Py.split c r.
Proof.
  induction p as [|d p IH]; simpl.
  - now rewrite Ascii.eqb_refl.
  - destruct (Ascii.eqb c d); [discriminate|].
    intros H. now rewrite (IH H).
Qed.

Lemma number_without c s v :
  delimiter c = true -> Py.float_of_string s = Some v -> Py.contains c s = false.
Proof.
  intros Hc H. apply plain_contains; [exact Hc|].
  eapply float_of_string_plain, H.
Qed.

(** What the handler reads between the parentheses of a string
    [fn(inner)], when neither [fn] nor [inner] holds a parenthesis. *)
Lemma read_between_parentheses fn inner :
  plain fn = true -> Py.contains ")" inner = false ->
  Py.index "(" (fn ++ "(" ++ inner ++ ")") = Some (String.length fn) /\
  Py.index ")" (fn ++ "(" ++ inner ++ ")")
    = Some (String.length fn + 1 + String.length inner)%nat /\
  Py.slice (String.length fn + 1) (String.length fn + 1 + String.length inner)
    (fn ++ "(" ++ inner ++ ")") = inner.
Proof.
  intros Hf Hi2.
  assert (Hf1 : Py.contains "(" fn = false) by now apply plain_contains.
  assert (Hf2 : Py.contains ")" fn = false) by now apply plain_contains.
  split; [|split].
  - now apply index_app_char.
  - rewrite (index_app_skip ")" fn ("(" ++ inner ++ ")") (1 + String.length inner) Hf2).
    + f_equal. lia.
    + change ("(" ++ inner ++ ")") with (String "(" (inner ++ ")")).
      cbn [Py.index]. change (Ascii.eqb ")" "(") with false. cbv iota.
      now rewrite index_app_char.
  - unfold Py.slice.
    replace (String.length fn + 1 + String.length inner - (String.length fn + 1))%nat
      with (String.length inner) by lia.
    clear. induction fn as [|d fn IH]; simpl.
    + apply substring_app_left.
    + exact IH.
Qed.

Lemma guard_of_form fn inner :
  fn = "rgb" \/ fn = "rgba" ->
  passes_guard (fn ++ "(" ++ inner ++ ")") = true.
Proof.
  intros H. unfold passes_guard.
  change (fn ++ "(" ++ inner ++ ")") with (fn ++ String "(" (inner ++ ")")).
  rewrite contains_app_char.
  change (fn ++ String "(" (inner ++ ")")) with (fn ++ "(" ++ inner ++ ")").
  replace (fn ++ "(" ++ inner ++ ")") with ((fn ++ "(" ++ inner) ++ ")")
    by (now rewrite !append_assoc).
  rewrite contains_app_char.
  now destruct H as [-> | ->].
Qed.

(** The handler on a string [fn(inner)] whose pieces between the commas
    are numbers. *)
Lemma color_handler_reads (s : state) fn inner pieces values :
  fn = "rgb" \/ fn = "rgba" ->
  Py.contains ")" inner = false ->
  Py.split "," inner = pieces ->
  floats pieces s = Returned values s ->
  AppDelegate.userContentController_didReceiveScriptMessage_
    (color_message (fn ++ "(" ++ inner ++ ")")) s
  = bind (unpack3 (List.map (fun val => Py.div val 255) (firstn 3 values)))
      (fun rgb =>
         let '(r, g, b) := rgb in
         DragArea.setBackgroundColor_
           {| redComponent := r; greenComponent := g; blueComponent := b;
              alphaComponent := Py.Fin 1 |}) s.
Proof.
  intros Hfn Hin Hsplit Hfloats.
  assert (Hf : plain fn = true) by now destruct Hfn as [-> | ->].
  destruct (read_between_parentheses fn inner Hf Hin) as (I1 & I2 & I3).
  pose proof (guard_of_form fn inner Hfn) as G. unfold passes_guard in G.
  unfold AppDelegate.userContentController_didReceiveScriptMessage_, color_message.
  cbn [msg_name msg_body].
  rewrite String.eqb_refl, G.
  unfold index_of, bind at 1. rewrite I1. unfold ret at 1.
  unfold bind at 1. rewrite I2. unfold ret at 1.
  rewrite I3, Hsplit.
  unfold bind at 1. rewrite Hfloats. reflexivity.
Qed.

Lemma floats_numeric (s : state) pieces values :
  Forall2 (fun p v => Py.float_of_string p = Some v) pieces values ->
  floats pieces s = Returned values s.
Proof.
  induction 1 as [|p v ps vs Hp _ IH]; simpl; [reflexivity|].
  rewrite Hp. unfold bind. now rewrite IH.
Qed.

(** ** Doubles *)

Lemma nearest_even_close x :
  x - (1 # 2) <= inject_Z (Py.nearest_even x) <= x + (1 # 2).
Proof.
  unfold Py.nearest_even.
  pose proof (Qfloor_le x) as L. pose proof (Qlt_floor x) as U.
  rewrite inject_Z_plus in U. change (inject_Z 1) with 1 in U.
  destruct (Qcompare (x - inject_Z (Qfloor x)) (1 # 2)) eqn:C.
  - apply Qeq_alt in C.
    destruct (Z.even (Qfloor x)); rewrite ?inject_Z_plus;
      change (inject_Z 1) with 1; lra.
  - apply Qlt_alt in C. lra.
  - apply Qgt_alt in C. rewrite inject_Z_plus. change (inject_Z 1) with 1. lra.
Qed.

Lemma nearest_even_le x n : x <= inject_Z n -> (Py.nearest_even x <= n)%Z.
Proof.
  intros H. pose proof (nearest_even_close x) as [_ U].
  destruct (Z.le_gt_cases (Py.nearest_even x) n) as [|G]; [assumption|].
  exfalso. assert (n + 1 <= Py.nearest_even x)%Z as G' by lia.
  rewrite Zle_Qle, inject_Z_plus in G'. change (inject_Z 1) with 1 in G'.
  lra.
Qed.

Lemma nearest_even_nonneg x : 0 <= x -> (0 <= Py.nearest_even x)%Z.
Proof.
  intros H. pose proof (nearest_even_close x) as [L _].
  destruct (Z.le_gt_cases 0 (Py.nearest_even x)) as [|G]; [assumption|].
  exfalso. assert (Py.nearest_even x <= -1)%Z as G' by lia.
  rewrite Zle_Qle in G'. change (inject_Z (-1)) with (-1 # 1) in G'. lra.
Qed.

Lemma binade_le q : 0 < q -> 2 ^ Py.binade q <= q.
Proof.
  intros P. unfold Py.binade.
  destruct (Qle_bool _ q) eqn:B; [now apply Qle_bool_iff|]. clear B.
  destruct q as [n d]. cbn [Qnum Qden].
  assert (0 < n)%Z as Pn by (unfold Qlt in P; cbn in P; lia).
  pose proof (Z.log2_spec n Pn) as [Ln _].
  pose proof (Z.log2_spec (Zpos d) (Pos2Z.is_pos d)) as [_ Ud].
  pose proof (Z.log2_nonneg n). pose proof (Z.log2_nonneg (Zpos d)).
  replace (Z.log2 n - Z.log2 (Zpos d) - 1)%Z
    with (Z.log2 n - Z.succ (Z.log2 (Zpos d)))%Z by lia.
  rewrite Qpower_minus by discriminate.
  change 2 with (inject_Z 2).
  rewrite <- !Zpower_Qpower by lia.
  set (A := (2 ^ Z.log2 n)%Z) in *.
  set (B := (2 ^ Z.succ (Z.log2 (Zpos d)))%Z) in *.
  assert (0 < B)%Z by lia.
  apply Qle_shift_div_r; [unfold Qlt; cbn; lia|].
  unfold Qle, Qmult, inject_Z. cbn [Qnum Qden].
  nia.
Qed.

Lemma binade_unit q : 0 < q -> q <= 1 -> (Py.binade q <= 0)%Z.
Proof.
  intros P U. pose proof (binade_le q P) as B.
  destruct (Z.le_gt_cases (Py.binade q) 0) as [|G]; [assumption|exfalso].
  assert (2 ^ 1 <= 2 ^ Py.binade q)
    by (apply Qpower_le_compat_l; [lia|discriminate]).
  change (2 ^ 1) with 2 in *. lra.
Qed.

(** The double nearest to a number between 0 and 1 lies between 0 and 1,
    within [2^-53] of the number. *)
Lemma round_unit x :
  0 <= x <= 1 ->
  exists q, Py.round false x = Py.Fin q /\ 0 <= q <= 1 /\
            x - (1 # 2 ^ 53) <= q <= x + (1 # 2 ^ 53).
Proof.
  intros [L U]. unfold Py.round.
  set (t := 1 # 2 ^ 53). assert (0 < t) as Pt by reflexivity.
  destruct (Qle_bool x 0) eqn:Z0.
  { apply Qle_bool_iff in Z0. exists 0. cbn [Py.zero]. repeat split; lra. }
  assert (0 < x) as P.
  { apply Qnot_le_lt. intros H. apply Qle_bool_iff in H. congruence. }
  clear Z0.
  pose proof (binade_unit x P U) as E.
  unfold Py.ulp.
  set (k := (Z.max (Py.binade x) (-1022) - 52)%Z).
  assert (k <= -52)%Z as Hk by (unfold k; lia).
  set (u := 2 ^ k).
  assert (0 < u) as Pu by (apply Qpower_0_lt; reflexivity).
  assert (u <= 1 # 2 ^ 52) as Hu.
  { change (1 # 2 ^ 52) with (2 ^ (-52)).
    apply Qpower_le_compat_l; [exact Hk|discriminate]. }
  assert (/ u == inject_Z (2 ^ (- k))) as Iu.
  { unfold u. rewrite <- Qpower_opp. change 2 with (inject_Z 2) at 1.
    rewrite Zpower_Qpower by lia. reflexivity. }
  set (y := x / u).
  assert (x == y * u) as Hx by (unfold y; field; lra).
  pose proof (nearest_even_close y) as [C1 C2].
  assert (0 <= y) as Py0.
  { unfold y. apply Qle_shift_div_l; [exact Pu|lra]. }
  pose proof (nearest_even_nonneg y Py0) as M0.
  assert (Py.nearest_even y <= 2 ^ (- k))%Z as M1.
  { apply nearest_even_le. rewrite <- Iu. unfold y, Qdiv.
    rewrite <- (Qmult_1_l (/ u)) at 2. apply Qmult_le_compat_r; [exact U|].
    apply Qinv_le_0_compat. lra. }
  set (m := Py.nearest_even y) in *.
  assert (inject_Z m * u <= 1) as V1.
  { apply Qle_trans with (inject_Z (2 ^ (- k)) * u).
    - apply Qmult_le_compat_r; [now rewrite <- Zle_Qle|lra].
    - rewrite <- Iu. rewrite Qmult_comm, Qmult_inv_r; lra. }
  assert (0 <= inject_Z m) as M0' by (now rewrite <- (Zle_Qle 0)).
  assert (0 <= inject_Z m * u) as V0 by (apply Qmult_le_0_compat; lra).
  assert (x - t <= inject_Z m * u <= x + t) as T.
  { rewrite Hx.
    assert ((inject_Z m - y) * u <= (1 # 2) * u)
      by (apply Qmult_le_compat_r; lra).
    assert (- ((1 # 2) * u) <= (inject_Z m - y) * u).
    { setoid_replace (- ((1 # 2) * u)) with ((- (1 # 2)) * u) by ring.
      apply Qmult_le_compat_r; lra. }
    assert ((1 # 2) * u <= t).
    { setoid_replace t with ((1 # 2) * (1 # 2 ^ 52)) by reflexivity.
      apply Qmult_le_l; [reflexivity|exact Hu]. }
    split;
      setoid_replace (inject_Z m * u) with (y * u + (inject_Z m - y) * u) by ring;
      lra. }
  destruct (m =? 0)%Z eqn:Em.
  - apply Z.eqb_eq in Em. rewrite Em in T. exists 0. cbn [Py.zero].
    split; [reflexivity|]. split; [lra|]. rewrite Qmult_0_l in T. exact T.
  - assert (Qle_bool (2 ^ 1024) (Qred (inject_Z m * u)) = false) as O.
    { destruct (Qle_bool _ _) eqn:B; [|reflexivity]. exfalso.
      apply Qle_bool_iff in B. rewrite Qred_correct in B.
      assert (1 < 2 ^ 1024) by reflexivity. lra. }
    rewrite O. exists (Qred (inject_Z m * u)). split; [reflexivity|].
    rewrite Qred_correct. split; [split; assumption|exact T].
Qed.

(** A channel between 0 and 255, divided by 255. *)
Lemma div_255_normalized x :
  0 <= x <= 255 ->
  exists c, Py.div (Py.Fin x) 255 = Py.Fin c /\ normalized x c.
Proof.
  intros [L U]. unfold Py.div, normalized.
  assert (Qle_bool 0 x = true) as -> by now apply Qle_bool_iff.
  apply round_unit. split.
  - apply Qle_shift_div_l; [reflexivity|lra].
  - apply Qle_shift_div_r; [reflexivity|lra].
Qed.

(** ** The colour handler on the form [rgb(r, g, b[, a])] *)

(** C1.  For every message on [backgroundColorHandler] whose body has the
    form [rgb(r, g, b)] or [rgb(r, g, b, a)], where [float] reads the first
    three components as numbers [r], [g], [b] between 0 and 255 (the
    doubles nearest to what is written: for the integers a browser writes,
    these integers), the handler returns normally and leaves the state with
    the drag area's background set to the colour whose components are the
    doubles [r / 255.0], [g / 255.0], [b / 255.0] and whose alpha is 1.
    Each component lies between 0 and 1 and within [2^-53] of the exact
    quotient ([r/255], [g/255], [b/255]).  A fourth component has no
    influence, and nothing else of the state changes. *)
Theorem backgroundColor_rgb_sets_opaque_color (s : state) body r g b :
  rgb_form body r g b ->
  0 <= r <= 255 -> 0 <= g <= 255 -> 0 <= b <= 255 ->
  exists red green blue : Q,
    AppDelegate.userContentController_didReceiveScriptMessage_ (color_message body) s
    = Returned tt
        (with_drag_color
           {| redComponent := Py.Fin red; greenComponent := Py.Fin green;
              blueComponent := Py.Fin blue; alphaComponent := Py.Fin 1 |} s)
    /\ Py.div (Py.Fin r) 255 = Py.Fin red
    /\ Py.div (Py.Fin g) 255 = Py.Fin green
    /\ Py.div (Py.Fin b) 255 = Py.Fin blue
    /\ normalized r red /\ normalized g green /\ normalized b blue.
Proof.
  intros F Hr Hg Hb.
  destruct (div_255_normalized r Hr) as (red & Er & Tr).
  destruct (div_255_normalized g Hg) as (green & Eg & Tg).
  destruct (div_255_normalized b Hb) as (blue & Eb & Tb).
  exists red, green, blue.
  split; [|repeat (split; [assumption|]); assumption].
  assert (D : delimiter "," = true) by reflexivity.
  assert (P : delimiter ")" = true) by reflexivity.
  destruct F as [fn sr sg sb r g b Hfn Nr Ng Nb
                |fn sr sg sb sa r g b a Hfn Nr Ng Nb Na].
  - replace (sr ++ "," ++ sg ++ "," ++ sb ++ ")")
      with ((sr ++ "," ++ sg ++ "," ++ sb) ++ ")")
      by (now rewrite !append_assoc).
    rewrite (color_handler_reads s fn (sr ++ "," ++ sg ++ "," ++ sb)
               [sr; sg; sb] [Py.Fin r; Py.Fin g; Py.Fin b] Hfn).
    + cbn [firstn List.map]. rewrite Er, Eg, Eb. reflexivity.
    + rewrite !contains_app.
      rewrite (number_without ")" _ _ P Nr), (number_without ")" _ _ P Ng),
        (number_without ")" _ _ P Nb). reflexivity.
    + change (sr ++ "," ++ sg ++ "," ++ sb)
        with (sr ++ String "," (sg ++ String "," sb)).
      rewrite split_app_char by (eapply number_without; eauto).
      rewrite split_app_char by (eapply number_without; eauto).
      rewrite split_plain by (eapply number_without; eauto).
      reflexivity.
    + apply floats_numeric. repeat constructor; assumption.
  - replace (sr ++ "," ++ sg ++ "," ++ sb ++ "," ++ sa ++ ")")
      with ((sr ++ "," ++ sg ++ "," ++ sb ++ "," ++ sa) ++ ")")
      by (now rewrite !append_assoc).
    rewrite (color_handler_reads s fn (sr ++ "," ++ sg ++ "," ++ sb ++ "," ++ sa)
               [sr; sg; sb; sa] [Py.Fin r; Py.Fin g; Py.Fin b; a] Hfn).
    + cbn [firstn List.map]. rewrite Er, Eg, Eb. reflexivity.
    + rewrite !contains_app.
      rewrite (number_without ")" _ _ P Nr), (number_without ")" _ _ P Ng),
        (number_without ")" _ _ P Nb), (number_without ")" _ _ P Na).
      reflexivity.
    + change (sr ++ "," ++ sg ++ "," ++ sb ++ "," ++ sa)
        with (sr ++ String "," (sg ++ String "," (sb ++ String "," sa))).
      rewrite split_app_char by (eapply number_without; eauto).
      rewrite split_app_char by (eapply number_without; eauto).
      rewrite split_app_char by (eapply number_without; eauto).
      rewrite split_plain by (eapply number_without; eauto).
      reflexivity.
    + apply floats_numeric. repeat constructor; assumption.
Qed.

Lemma backgroundColor_rgb_sets_opaque_color_witness :
  rgb_form "rgba(12, 34, 255, 0.5)" 12 34 255 /\
  AppDelegate.userContentController_didReceiveScriptMessage_
    (color_message "rgba(12, 34, 255, 0.5)") example_launched
  = Returned tt
      (with_drag_color
         {| redComponent := Py.Fin (847736400446211 # 18014398509481984);
            greenComponent := Py.Fin (4803839602528529 # 36028797018963968);
            blueComponent := Py.Fin 1;
            alphaComponent := Py.Fin 1 |} example_launched).
Proof.
  assert (F : rgb_form "rgba(12, 34, 255, 0.5)" 12 34 255).
  { apply (rgb_four "rgba" "12" " 34" " 255" " 0.5" 12 34 255 (Py.Fin (1 # 2)));
      [right; reflexivity | vm_compute; reflexivity ..]. }
  split; [exact F|].
  destruct (backgroundColor_rgb_sets_opaque_color example_launched _ 12 34 255 F)
    as (red & green & blue & E & Er & Eg & Eb & _);
    [split; vm_compute; discriminate ..|].
  rewrite E. vm_compute in Er, Eg, Eb.
  injection Er as <-. injection Eg as <-. injection Eb as <-. reflexivity.
Defined.

(** ** What a script message can do to the state *)

Lemma floats_cases pieces (s : state) :
  (exists values, floats pieces s = Returned values s) \/
  (exists e, floats pieces s = Raised e s).
Proof.
  induction pieces as [|p ps IH]; simpl.
  - left. now exists [].
  - destruct (Py.float_of_string p) as [x|].
    + unfold bind. destruct IH as [[vs ->] | [e ->]].
      * left. now exists (x :: vs).
      * right. now exists e.
    + right. now exists (ValueError_float p).
Qed.

Lemma script_message_cases (m : WKScriptMessage) (s : state) :
  let o := AppDelegate.userContentController_didReceiveScriptMessage_ m s in
  o = Returned tt s \/
  (exists c, o = Returned tt (with_drag_color c s)) \/
  (exists e, o = Raised e s) \/
  (exists line, o = Returned tt (with_stdout (fun out => (out ++ [line])%list) s)).
Proof.
  unfold AppDelegate.userContentController_didReceiveScriptMessage_.
  destruct (msg_name m =? "backgroundColorHandler").
  - destruct (Py.startswith "rgb" (msg_body m) && Py.contains "(" (msg_body m)
              && Py.contains ")" (msg_body m)); [|now left].
    unfold bind, index_of.
    destruct (Py.index "(" (msg_body m)) as [i|];
      [|right; right; left; now exists ValueError_index].
    destruct (Py.index ")" (msg_body m)) as [j|];
      [|right; right; left; now exists ValueError_index].
    unfold ret.
    destruct (floats_cases (Py.split "," (Py.slice (i + 1) j (msg_body m))) s)
      as [[vs ->] | [e ->]]; [|right; right; left; now exists e].
    unfold unpack3.
    destruct (List.map (fun val => Py.div val 255) (firstn 3 vs))
      as [|r [|g [|b [|x l]]]] eqn:E;
      try (right; right; left; eexists; unfold raise; reflexivity).
    right; left. eexists. reflexivity.
  - destruct (msg_name m =? "debugLogger"); [|now left].
    right; right; right. eexists. reflexivity.
Qed.

Lemma count_app c a b : count c (a ++ b) = (count c a + count c b)%nat.
Proof.
  induction a as [|d a IH]; simpl; [reflexivity|]. rewrite IH. lia.
Qed.

(** A string of the form [rgb(r, g, b[, a])] holds at least two commas. *)
Lemma rgb_form_commas body r g b :
  rgb_form body r g b -> (2 <= count "," body)%nat.
Proof.
  intros [fn sr sg sb r' g' b' _ _ _ _ |fn sr sg sb sa r' g' b' a _ _ _ _ _];
    repeat (rewrite count_app; simpl); lia.
Qed.

Lemma count_number s v :
  Py.float_of_string s = Some v -> count "," s = 0%nat.
Proof.
  intros H. apply float_of_string_plain in H. clear v.
  induction s as [|c s IH]; [reflexivity|].
  cbn [plain count] in *.
  apply andb_true_iff in H as [Hc Hs]. rewrite (IH Hs).
  destruct (Ascii.eqb_spec "," c) as [<-|]; [discriminate|reflexivity].
Qed.

(** ... and at most three. *)
Lemma rgb_form_commas_at_most body r g b :
  rgb_form body r g b -> (count "," body <= 3)%nat.
Proof.
  intros [fn sr sg sb r' g' b' Hfn Nr Ng Nb
         |fn sr sg sb sa r' g' b' a Hfn Nr Ng Nb Na];
    repeat (rewrite count_app; simpl);
    rewrite ?(count_number _ _ Nr), ?(count_number _ _ Ng),
      ?(count_number _ _ Nb), ?(count_number _ _ Na);
    destruct Hfn as [-> | ->]; simpl; lia.
Qed.

(** C2, as stated, fails: the body [rgb)(] has no parenthesised part at
    all, let alone the form [rgb(r, g, b[, a])], and the handler does not
    ignore it silently: it reads the empty string between the parentheses
    and raises a [ValueError] ([float] of the empty string). *)
Lemma backgroundColor_misplaced_parentheses_raise :
  (forall r g b, ~ rgb_form "rgb)(" r g b) /\
  AppDelegate.userContentController_didReceiveScriptMessage_
    (color_message "rgb)(") example_start
  = Raised (ValueError_float "") example_start.
Proof.
  split; [|reflexivity].
  intros r g b F. apply rgb_form_commas in F. vm_compute in F. lia.
Qed.

(** C2, amended.  A message on [backgroundColorHandler] whose body does not
    start with [rgb], or holds no opening or no closing parenthesis, is
    ignored: the handler returns normally and the state, the drag area's
    colour included, is what it was.  For every body, a handler that raises
    leaves the state as it found it. *)
Theorem backgroundColor_guard_failure_ignored (s : state) body :
  (passes_guard body = false ->
   AppDelegate.userContentController_didReceiveScriptMessage_ (color_message body) s
   = Returned tt s) /\
  (forall e s',
   AppDelegate.userContentController_didReceiveScriptMessage_ (color_message body) s
   = Raised e s' -> s' = s).
Proof.
  split.
  - intros G.
    unfold AppDelegate.userContentController_didReceiveScriptMessage_, color_message.
    cbn [msg_name msg_body]. rewrite String.eqb_refl.
    unfold passes_guard in G. now rewrite G.
  - intros e s' H.
    destruct (script_message_cases (color_message body) s)
      as [E | [[c E] | [[e' E] | [line E]]]];
      cbv zeta in E; rewrite E in H; congruence.
Qed.

Lemma backgroundColor_guard_failure_ignored_witness :
  passes_guard "#ffffff" = false /\
  AppDelegate.userContentController_didReceiveScriptMessage_
    (color_message "#ffffff") example_start
  = Returned tt example_start.
Proof.
  split; [reflexivity|].
  apply (proj1 (backgroundColor_guard_failure_ignored example_start "#ffffff")).
  reflexivity.
Defined.

(** Runs of the handler on colour strings as browsers write them, and on
    strings they do not write. *)

Example white_background :
  AppDelegate.userContentController_didReceiveScriptMessage_
    (color_message "rgb(255, 255, 255)") example_launched
  = Returned tt
      (with_drag_color
         {| redComponent := Py.Fin 1; greenComponent := Py.Fin 1;
            blueComponent := Py.Fin 1; alphaComponent := Py.Fin 1 |}
         example_launched).
Proof. vm_compute. reflexivity. Qed.

Example transparent_background :
  AppDelegate.userContentController_didReceiveScriptMessage_
    (color_message "rgba(0, 0, 0, 0)") example_launched
  = Returned tt
      (with_drag_color
         {| redComponent := Py.Fin 0; greenComponent := Py.Fin 0;
            blueComponent := Py.Fin 0; alphaComponent := Py.Fin 1 |}
         example_launched).
Proof. vm_compute. reflexivity. Qed.

(** The components are doubles: [128 / 255.0] is not the rational
    [128/255]. *)
Example grey_background :
  AppDelegate.userContentController_didReceiveScriptMessage_
    (color_message "rgb(128, 128, 128)") example_launched
  = Returned tt
      (with_drag_color
         {| redComponent := Py.Fin (282578800148737 # 562949953421312);
            greenComponent := Py.Fin (282578800148737 # 562949953421312);
            blueComponent := Py.Fin (282578800148737 # 562949953421312);
            alphaComponent := Py.Fin 1 |}
         example_launched).
Proof. vm_compute. reflexivity. Qed.

(** A number too small for a double is read as zero, and [-0] as minus
    zero. *)
Example underflow_background :
  AppDelegate.userContentController_didReceiveScriptMessage_
    (color_message "rgb(1e-400, -0, 5e-324)") example_launched
  = Returned tt
      (with_drag_color
         {| redComponent := Py.Fin 0; greenComponent := Py.NegZero;
            blueComponent := Py.Fin 0; alphaComponent := Py.Fin 1 |}
         example_launched).
Proof. vm_compute. reflexivity. Qed.

(** [float] reads blanks and decimal digits beyond ASCII: a no-break space
    (U+00A0) before a component, and the Arabic-Indic digit two (U+0662). *)
Example no_break_space_background :
  let nbsp := String (ascii_of_nat 194) (String (ascii_of_nat 160) "") in
  let two := String (ascii_of_nat 217) (String (ascii_of_nat 162) "") in
  AppDelegate.userContentController_didReceiveScriptMessage_
    (color_message ("rgb(" ++ nbsp ++ "255," ++ two ++ "55,255)")) example_launched
  = Returned tt
      (with_drag_color
         {| redComponent := Py.Fin 1; greenComponent := Py.Fin 1;
            blueComponent := Py.Fin 1; alphaComponent := Py.Fin 1 |}
         example_launched).
Proof. vm_compute. reflexivity. Qed.

Example wide_gamut_background_ignored :
  AppDelegate.userContentController_didReceiveScriptMessage_
    (color_message "color(srgb 1 1 1)") example_launched
  = Returned tt example_launched.
Proof. reflexivity. Qed.

Example two_components_raise :
  (forall r g b, ~ rgb_form "rgb(1, 2)" r g b) /\
  AppDelegate.userContentController_didReceiveScriptMessage_
    (color_message "rgb(1, 2)") example_launched
  = Raised (ValueError_unpack 3 2) example_launched.
Proof.
  split; [|vm_compute; reflexivity].
  intros r g b F. apply rgb_form_commas in F. vm_compute in F. lia.
Qed.

Example empty_parentheses_raise :
  AppDelegate.userContentController_didReceiveScriptMessage_
    (color_message "rgb()") example_launched
  = Raised (ValueError_float "") example_launched.
Proof. reflexivity. Qed.

Example percentage_alpha_raises :
  AppDelegate.userContentController_didReceiveScriptMessage_
    (color_message "rgb(1, 2, 3, 50%)") example_launched
  = Raised (ValueError_float " 50%") example_launched.
Proof. vm_compute. reflexivity. Qed.

(** Five components are not of the form [rgb(r, g, b[, a])] either, and
    here the handler does set the colour. *)
Example five_components_set_color :
  (forall r g b, ~ rgb_form "rgb(1,2,3,4,5)" r g b) /\
  drag_area_backgroundColor
    (views (final (AppDelegate.userContentController_didReceiveScriptMessage_
                     (color_message "rgb(1,2,3,4,5)") example_launched)))
  = Some {| redComponent := Py.Fin (282578800148737 # 72057594037927936);
            greenComponent := Py.Fin (282578800148737 # 36028797018963968);
            blueComponent := Py.Fin (847736400446211 # 72057594037927936);
            alphaComponent := Py.Fin 1 |}.
Proof.
  split; [|vm_compute; reflexivity].
  intros r g b F. apply rgb_form_commas_at_most in F. vm_compute in F. lia.
Qed.

(** ** The run loop: what every turn preserves *)

Section RunLoopFacts.

Context {K : Constants}.

(** Sending an action never raises; it leaves the timers, the tap handle,
    the observers, the window's frame and delegate, the menu, the stored
    data and the web view's configuration alone, and keeps the layout. *)
Lemma performSelector_frame target sel sender a (s : state) :
  exists s',
    RunLoop.performSelector target sel sender a s = Returned tt s' /\
    timers s' = timers s /\
    event_tap (tap s') = event_tap (tap s) /\
    resize_observer s' = resize_observer s /\
    delegate (window s') = delegate (window s) /\
    frame (window s') = frame (window s) /\
    status_menu (status_item s') = status_menu (status_item s) /\
    persisted s' = persisted s /\
    web s' = web s /\
    (layout s -> layout s').
Proof.
  unfold layout.
  destruct target; run_handler;
    repeat case_if;
    try (eexists; split; [reflexivity|]; cbn; intuition congruence).
  all: destruct (event_tap (tap s)) as [[port|]|] eqn:E; cbn;
    try (eexists; split; [reflexivity|]; cbn; intuition congruence).
  all: destruct (tap_enabled (tap s)); cbn;
    eexists; (split; [reflexivity|]); cbn; intuition congruence.
Qed.

End RunLoopFacts.

Lemma remove_nth_incl {A} (x : A) i l :
  In x (RunLoop.remove_nth i l) -> In x l.
Proof.
  revert i. induction l as [|y l IH]; intros [|i]; simpl; auto.
  intros [->|H]; eauto.
Qed.

Lemma remove_nth_keeps {A} (x y : A) i l :
  nth_error l i = Some y -> x <> y -> In x l -> In x (RunLoop.remove_nth i l).
Proof.
  revert i. induction l as [|z l IH]; intros [|i]; simpl; auto.
  - intros [= ->] N [->|H]; [contradiction|assumption].
  - intros E N [->|H]; [now left|right; eauto].
Qed.

Section Invariant.

Context {K : Constants}.

Lemma launch_launched created stored t0 saved dark built_in :
  launched created
    (final (AppDelegate.applicationDidFinishLaunching_ created stored t0
              (before_launch saved dark built_in))).
Proof.
  unfold launched, layout.
  destruct created as [port|], saved as [r|]; cbn;
    repeat split; auto; try discriminate; try tauto.
Qed.

Lemma launched_frame created (s s' : state) :
  timers s' = timers s ->
  event_tap (tap s') = event_tap (tap s) ->
  resize_observer s' = resize_observer s ->
  delegate (window s') = delegate (window s) ->
  status_menu (status_item s') = status_menu (status_item s) ->
  web s' = web s ->
  (layout s -> layout s') ->
  launched created s -> launched created s'.
Proof.
  unfold launched. intros -> -> -> -> -> ->. tauto.
Qed.

Lemma step_launched created ev a (s : state) :
  launched created s -> launched created (RunLoop.step ev a s).
Proof.
  intros L. unfold RunLoop.step.
  destruct ev as [i| |i| |m|e|e|r| |dark| ]; cbn [RunLoop.dispatch].
  - (* menu *)
    unfold bind at 1, gets.
    destruct (nth_error (status_menu (status_item s)) i) as [item|]; [|exact L].
    destruct (performSelector_frame (item_target item) (item_action item)
                (Some (item_title item)) a s)
      as (s' & -> & ? & ? & ? & ? & ? & ? & ? & ? & ?).
    cbn [final]. eapply launched_frame; eauto.
  - (* close button *)
    unfold bind at 1, gets.
    destruct (performSelector_frame target_self (close_button_action (views s))
                (Some "NSButton") a s)
      as (s' & -> & ? & ? & ? & ? & ? & ? & ? & ? & ?).
    cbn [final]. eapply launched_frame; eauto.
  - (* timer *)
    unfold RunLoop.fire. unfold bind at 1, gets.
    destruct (nth_error (timers s) i) as [t|] eqn:E; [|exact L].
    destruct (repeats t) eqn:R.
    + unfold bind at 1, ret at 1.
      destruct (performSelector_frame target_self (timer_selector t) None a s)
        as (s' & -> & ? & ? & ? & ? & ? & ? & ? & ? & ?).
      cbn [final]. eapply launched_frame; eauto.
    + unfold bind at 1, modify.
      set (s1 := with_timers (RunLoop.remove_nth i) s).
      destruct (performSelector_frame target_self (timer_selector t) None a s1)
        as (s' & -> & Ht & ? & ? & ? & ? & ? & ? & ? & Hl).
      cbn [final].
      destruct L as (L1 & L2 & L3 & L4 & L5 & L6 & L7 & L8).
      unfold launched. rewrite Ht.
      repeat split; try (subst s1; cbn in *; congruence).
      * intros port Hp. subst s1. cbn.
        eapply remove_nth_keeps; eauto.
        intros <-. discriminate R.
      * intros Hc u Hu. subst s1. cbn in Hu.
        apply remove_nth_incl in Hu. eauto.
      * apply Hl. exact L8.
      * apply Hl. exact L8.
  - (* navigation *)
    run_handler.
    destruct (navigationDelegate (web s)); [|exact L].
    destruct L as (L1 & L2 & L3 & L4 & L5 & L6 & L7 & L8).
    unfold launched; cbn; repeat split; auto; try apply L8.
    + intros port Hp. apply in_or_app. left. eauto.
    + intros Hc u Hu. apply in_app_or in Hu as [Hu|[<-|[]]]; [eauto|].
      discriminate.
  - (* script message *)
    destruct (script_message_cases m s) as [E | [[c E] | [[e E] | [line E]]]];
      cbv zeta in E; rewrite E; cbn [final]; try exact L;
      eapply launched_frame; eauto.
  - (* key down *)
    run_handler.
    destruct (isKeyWindow (window s)); [|exact L].
    destruct (delegate (window s)); [|exact L].
    repeat case_if; exact L.
  - (* mouse down *)
    run_handler.
    destruct (local_mouse_monitor s); [|exact L].
    destruct (ev_window e) as [[|n]|]; try exact L.
    destruct (hitTest e) as [[]|]; exact L.
  - (* resize *)
    unfold RunLoop.resize. run_handler. cbn.
    destruct L as (L1 & L2 & L3 & L4 & L5 & L6 & L7 & L8).
    destruct (frameAutosaveName (window s)); cbn; rewrite L4; cbn;
      unfold launched, layout; cbn; repeat split; auto.
  - (* tap disabled *)
    cbn. eapply launched_frame; [..|exact L]; cbn; auto.
  - (* appearance *)
    run_handler. cbn.
    eapply launched_frame; [..|exact L]; cbn; auto.
  - (* data removed *)
    run_handler.
    eapply launched_frame; [..|exact L]; cbn; auto.
Qed.

Lemma reachable_launched created (s : state) :
  RunLoop.reachable created s -> launched created s.
Proof.
  induction 1; [apply launch_launched | now apply step_launched].
Qed.

End Invariant.

(** ** The liveness check of the event tap *)

Section EventTap.

Context {K : Constants}.

(** C3.  When the tap was created at the launch, the run loop holds, in
    every state the delegate can reach, the repeating timer of interval 1
    second whose selector is [monitorEventTap:].  Whenever that timer fires
    the timers are as before (it fires again), and the tap is enabled
    afterwards: if the tap was disabled, the check has enabled it (one call
    of [CGEventTapEnable] and one line of output); if it was enabled, the
    check has changed nothing at all. *)
Theorem tap_monitor_reenables port (s : state) :
  RunLoop.reachable (Some port) s ->
  In tap_monitor_timer (timers s) /\
  forall i a,
    nth_error (timers s) i = Some tap_monitor_timer ->
    let s' := RunLoop.step (RunLoop.TimerFired i) a s in
    timers s' = timers s /\
    tap_enabled (tap s') = true /\
    (tap_enabled (tap s) = true -> s' = s) /\
    (tap_enabled (tap s) = false ->
     calls s' = (calls s ++ [CGEventTapEnable port true])%list /\
     stdout s' = (stdout s ++ ["Event tap was disabled, re-enabling..."])%list).
Proof.
  intros R. apply reachable_launched in R.
  destruct R as (T & M & _). split; [now apply (M port)|].
  intros i a E. cbv zeta.
  assert (F : RunLoop.step (RunLoop.TimerFired i) a s
              = final (AppDelegate.monitorEventTap_ s)).
  { unfold RunLoop.step, RunLoop.dispatch, RunLoop.fire.
    unfold bind at 1, gets. now rewrite E. }
  rewrite F. run_handler. rewrite T.
  destruct (tap_enabled (tap s)) eqn:En; cbn.
  - repeat split; auto; discriminate.
  - repeat split; auto; discriminate.
Qed.

End EventTap.

Lemma tap_monitor_reenables_witness :
  let a := {| RunLoop.now := "1.0"; RunLoop.startup_ok := true;
             RunLoop.startup_log := [] |} in
  let disabled :=
    @RunLoop.step example_constants RunLoop.EventTapDisabled a example_launched in
  tap_enabled (tap disabled) = false /\
  tap_enabled
    (tap (@RunLoop.step example_constants (RunLoop.TimerFired 0) a disabled)) = true.
Proof.
  intros a disabled. split; [reflexivity|].
  assert (R : @RunLoop.reachable example_constants (Some (MachPort 1)) disabled).
  { apply RunLoop.reach_step. unfold example_launched, example_start.
    apply RunLoop.reach_launch. }
  apply (proj2 (@tap_monitor_reenables example_constants (MachPort 1) disabled R)
           0%nat a).
  reflexivity.
Defined.

(** ** Installing and removing the autolauncher *)



(** ** Showing and hiding *)

Section ShowHide.

Context {K : Constants}.

(** C6.  Every call of [showWindow_] returns normally with the window in
    front and key and the application active, and has asked the web view to
    evaluate the focus script: the calls made are, in order,
    [makeKeyAndOrderFront], [activateIgnoringOtherApps] and
    [evaluateJavaScript] of the focus script.  In every state the delegate
    can reach, a finished navigation adds to the run loop one timer of 0.1
    second that does not repeat, with selector [_focusPromptTimerFired:];
    and whenever such a timer fires it leaves the run loop and the web view
    is asked once more to evaluate the focus script. *)
Theorem show_focuses_prompt (s : state) :
  (forall sender t,
     exists s',
       AppDelegate.showWindow_ sender t s = Returned tt s' /\
       isOnScreen (window s') = true /\
       isKeyWindow (window s') = true /\
       isActive (NSApp s') = true /\
       shown s' = true /\
       calls s' = (calls s ++ [makeKeyAndOrderFront; activateIgnoringOtherApps true;
                               evaluateJavaScript (js_focus t)])%list) /\
  (forall created a,
     RunLoop.reachable created s ->
     timers (RunLoop.step RunLoop.NavigationFinished a s)
     = (timers s ++ [focus_timer])%list) /\
  (forall i a,
     nth_error (timers s) i = Some focus_timer ->
     let s' := RunLoop.step (RunLoop.TimerFired i) a s in
     timers s' = RunLoop.remove_nth i (timers s) /\
     calls s' = (calls s ++ [evaluateJavaScript (js_focus (RunLoop.now a))])%list).
Proof.
  split; [|split].
  - intros sender t. eexists. split; [reflexivity|].
    cbn. rewrite <- !app_assoc. repeat split; reflexivity.
  - intros created a R. apply reachable_launched in R.
    destruct R as (_ & _ & _ & _ & _ & _ & N & _).
    unfold RunLoop.step. cbn [RunLoop.dispatch]. run_handler.
    rewrite N. reflexivity.
  - intros i a E. cbv zeta.
    assert (F : RunLoop.step (RunLoop.TimerFired i) a s
                = final (AppDelegate._focusPromptTimerFired_ (RunLoop.now a)
                           (with_timers (RunLoop.remove_nth i) s))).
    { unfold RunLoop.step, RunLoop.dispatch, RunLoop.fire.
      unfold bind at 1, gets. now rewrite E. }
    rewrite F. split; reflexivity.
Qed.

End ShowHide.

Lemma show_focuses_prompt_witness :
  let a := {| RunLoop.now := "2.5"; RunLoop.startup_ok := true;
             RunLoop.startup_log := [] |} in
  let loaded := @RunLoop.step example_constants RunLoop.NavigationFinished a
                  example_launched in
  timers loaded = [tap_monitor_timer; focus_timer] /\
  calls (@RunLoop.step example_constants (RunLoop.TimerFired 1) a loaded)
  = (calls loaded ++ [evaluateJavaScript (js_focus "2.5")])%list.
Proof.
  intros a loaded. split.
  - apply (proj1 (proj2 (@show_focuses_prompt example_constants example_launched))
             (Some (MachPort 1)) a).
    unfold example_launched, example_start. apply RunLoop.reach_launch.
  - apply (proj2 (proj2 (@show_focuses_prompt example_constants loaded)) 1%nat a).
    reflexivity.
Defined.

(** C8.  [hideWindow_] hides the application and nothing more.  It returns
    normally after one call of [NSApp.hide_]; the application is then
    neither active nor shown and the window is no longer key, so the window
    is not on screen any more.  Everything else is what it was: the window
    stays in the screen list with its frame, its level, its autosave name
    and its delegate, the process is as alive as before, the views, the web
    view's configuration, the status item, the tap, the timers, the
    observers, the stored frame and the trigger are untouched, and nothing
    is printed.  Hence [showWindow_] followed by [hideWindow_] ends with
    the window hidden and in the screen list, with the stored frame and
    trigger and all the rest as before the two, but for the lines
    [showWindow_] prints and the four calls made. *)
Theorem hide_keeps_window (s : state) (sender : option string) :
  (exists s',
     AppDelegate.hideWindow_ sender s = Returned tt s' /\
     NSApp s' = hidden_application s /\
     window s' = resigned_window s /\
     surroundings s' = surroundings s /\
     stdout s' = stdout s /\
     calls s' = (calls s ++ [NSApp_hide])%list /\
     shown s' = false /\
     isKeyWindow (window s') = false /\
     isOnScreen (window s') = isOnScreen (window s) /\
     frame (window s') = frame (window s) /\
     frameAutosaveName (window s') = frameAutosaveName (window s) /\
     delegate (window s') = delegate (window s) /\
     isTerminated (NSApp s') = isTerminated (NSApp s) /\
     persisted s' = persisted s /\
     views s' = views s /\ timers s' = timers s /\ tap s' = tap s) /\
  (forall t,
     exists s1 s2,
       AppDelegate.showWindow_ sender t s = Returned tt s1 /\
       AppDelegate.hideWindow_ sender s1 = Returned tt s2 /\
       NSApp s2 = hidden_application s /\
       window s2 = {| frame := frame (window s); floating := floating (window s);
                      frameAutosaveName := frameAutosaveName (window s);
                      delegate := delegate (window s);
                      isKeyWindow := false; isOnScreen := true |} /\
       surroundings s2 = surroundings s /\
       stdout s2
       = (stdout s
            ++ [("[DEBUG] showWindow_ called (sender: " ++ str_of_sender sender ++ ")")%string;
                ("[DEBUG] _focus_prompt_area called at " ++ t)%string])%list /\
       calls s2
       = (calls s ++ [makeKeyAndOrderFront; activateIgnoringOtherApps true;
                      evaluateJavaScript (js_focus t); NSApp_hide])%list /\
       shown s2 = false /\
       persisted s2 = persisted s).
Proof.
  split.
  - eexists. split; [reflexivity|]. unfold shown. cbn.
    rewrite andb_false_r. repeat split; reflexivity.
  - intros t. eexists. eexists. split; [reflexivity|]. split; [reflexivity|].
    unfold shown. cbn. rewrite <- !app_assoc. repeat split; reflexivity.
Qed.

(** ** A launch without the event tap *)

Section NoTap.

Context {K : Constants}.

(** C5.  When [CGEventTapCreate] returns no tap, the launch still returns
    normally: the failure is printed, no run-loop source and no timer is
    installed, and the window is shown, in front and key.  From then on, in
    every state the delegate can reach, no timer for the liveness check
    exists, and the first two items of the status menu run [showWindow_]
    and [hideWindow_]. *)
Theorem launch_without_tap stored t0 saved dark built_in :
  let start := before_launch saved dark built_in in
  let s := final (AppDelegate.applicationDidFinishLaunching_ None stored t0 start) in
  AppDelegate.applicationDidFinishLaunching_ None stored t0 start = Returned tt s /\
  In "Failed to create event tap. Check Accessibility permissions." (stdout s) /\
  event_tap (tap s) = Some None /\
  event_tap_source (tap s) = None /\
  main_run_loop_sources (tap s) = [] /\
  timers s = [] /\
  isOnScreen (window s) = true /\
  isKeyWindow (window s) = true /\
  shown s = true /\
  forall s' a,
    RunLoop.reachable None s' ->
    (forall t, In t (timers s') -> timer_selector t <> "monitorEventTap:") /\
    RunLoop.dispatch (RunLoop.MenuItemChosen 0) a s'
    = AppDelegate.showWindow_ (Some ("Show " ++ APP_TITLE)) (RunLoop.now a) s' /\
    RunLoop.dispatch (RunLoop.MenuItemChosen 1) a s'
    = AppDelegate.hideWindow_ (Some ("Hide " ++ APP_TITLE)) s'.
Proof.
  cbv zeta.
  split; [reflexivity|].
  split; [cbn; now left|].
  do 7 (split; [reflexivity|]).
  intros s' a R. apply reachable_launched in R.
  destruct R as (_ & _ & N & _ & _ & M & _).
  split; [now apply N|].
  unfold RunLoop.dispatch, bind, gets. rewrite M. split; reflexivity.
Qed.

End NoTap.

Lemma launch_without_tap_witness :
  let s := final (@AppDelegate.applicationDidFinishLaunching_ example_constants
                    None None "0.0" example_start) in
  let a := {| RunLoop.now := "3.0"; RunLoop.startup_ok := false;
             RunLoop.startup_log := ["The login item was not changed."] |} in
  @RunLoop.dispatch example_constants (RunLoop.MenuItemChosen 0) a s
  = AppDelegate.showWindow_ (Some "Show Gemini") "3.0" s.
Proof.
  intros s a.
  destruct (@launch_without_tap example_constants None "0.0" None false
              {| trigger_flags := 524288; trigger_key := 49 |})
    as (_ & _ & _ & _ & _ & _ & _ & _ & _ & H).
  apply (H s a).
  apply RunLoop.reach_launch.
Defined.

(** ** Dragging the window *)

(** C7.  A left-mouse-down event in the overlay window whose hit view is
    the drag area is consumed: the handler returns [None] after it has
    first run [showWindow_] (window in front and key, application active)
    and then started the window drag with that same event, in this order.
    Every other event is returned as it came and nothing changes. *)
Theorem drag_click_focuses_then_drags (s : state) (e : NSEvent) (t : string) :
  (ev_window e = Some overlay_window ->
   hitTest e = Some drag_area ->
   exists s',
     AppDelegate.handleLocalMouseEvent e t s = Returned None s' /\
     s' = final (window_performWindowDragWithEvent_ e
                   (final (AppDelegate.showWindow_ None t s))) /\
     calls s' = (calls s ++ [makeKeyAndOrderFront; activateIgnoringOtherApps true;
                             evaluateJavaScript (js_focus t);
                             performWindowDragWithEvent e])%list /\
     isKeyWindow (window s') = true /\
     shown s' = true) /\
  (~ (ev_window e = Some overlay_window /\ hitTest e = Some drag_area) ->
   AppDelegate.handleLocalMouseEvent e t s = Returned (Some e) s).
Proof.
  unfold AppDelegate.handleLocalMouseEvent. split.
  - intros -> ->. eexists. split; [reflexivity|].
    cbn. rewrite <- !app_assoc. repeat split; reflexivity.
  - intros N.
    destruct (ev_window e) as [[|n]|]; try reflexivity.
    destruct (hitTest e) as [[]|]; try reflexivity.
    exfalso. apply N. split; reflexivity.
Qed.

Lemma drag_click_focuses_then_drags_witness :
  exists s',
    AppDelegate.handleLocalMouseEvent example_click "4.0" example_launched
    = Returned None s' /\
    calls s' = (calls example_launched
                ++ [makeKeyAndOrderFront; activateIgnoringOtherApps true;
                    evaluateJavaScript (js_focus "4.0");
                    performWindowDragWithEvent example_click])%list.
Proof.
  destruct (proj1 (drag_click_focuses_then_drags example_launched example_click "4.0")
              eq_refl eq_refl) as (s' & E & _ & C & _).
  exists s'. split; assumption.
Defined.

(** ** Key commands *)

(** Testing a modifier mask is testing one bit of the flags. *)
Lemma truthy_land_bit (flags n : Z) :
  (0 <= n)%Z -> truthy (Z.land flags (Z.shiftl 1 n)) = Z.testbit flags n.
Proof.
  intros Hn. unfold truthy. rewrite Z.shiftl_1_l.
  destruct (Z.testbit flags n) eqn:B.
  - apply negb_true_iff, Z.eqb_neq. intros E.
    assert (T : Z.testbit (Z.land flags (2 ^ n)) n = true).
    { rewrite Z.land_spec, B, Z.pow2_bits_true; auto. }
    rewrite E, Z.bits_0 in T. discriminate.
  - apply negb_false_iff, Z.eqb_eq. apply Z.bits_inj_0. intros m.
    rewrite Z.land_spec.
    destruct (Z.eq_dec n m) as [<-|N].
    + now rewrite B.
    + rewrite (Z.pow2_bits_false n m N). apply andb_false_r.
Qed.

Section Keys.

Context {K : Constants}.

(** C9.  In every state the delegate can reach in which the overlay window
    is key, a key-down event is handled as follows, by the bits of its
    modifier flags (17 Shift, 18 Control, 19 Option, 20 Command).  With
    Option set nothing happens.  With Command or Control set and Option
    clear, the characters [a], [c], [x], [v] send [selectAll:], [copy:],
    [cut:], [paste:] to the first responder, [h] hides the window, [q]
    terminates the application, [n] evaluates the new-chat script, and [,]
    with Command set and Control clear evaluates the saved-info script.
    Each of these does that and nothing else.  For [h] this reads: the one
    call made is [NSApp.hide_], the application is then neither active nor
    shown and the window is no longer key, hence not on screen, and all the
    rest of the state is what it was, as after [hideWindow_].  For [q]: the
    one call made is [NSApp.terminate_], the process is terminated, and all
    the rest of the state is what it was. *)
Theorem key_commands created (s : state) (e : NSEvent) a :
  RunLoop.reachable created s ->
  isKeyWindow (window s) = true ->
  let flags := modifierFlags e in
  let key := charactersIgnoringModifiers e in
  let s' := RunLoop.step (RunLoop.KeyDown e) a s in
  let sent action := with_calls (fun cs => (cs ++ [firstResponder action])%list) s in
  let evaluated js := with_calls (fun cs => (cs ++ [evaluateJavaScript js])%list) s in
  (Z.testbit flags 19 = true -> s' = s) /\
  (Z.testbit flags 20 = true \/ Z.testbit flags 18 = true ->
   Z.testbit flags 19 = false ->
   (key = "a" -> s' = sent "selectAll:") /\
   (key = "c" -> s' = sent "copy:") /\
   (key = "x" -> s' = sent "cut:") /\
   (key = "v" -> s' = sent "paste:") /\
   (key = "h" ->
    s' = final (AppDelegate.hideWindow_ None s) /\
    NSApp s' = hidden_application s /\
    window s' = resigned_window s /\
    surroundings s' = surroundings s /\
    stdout s' = stdout s /\
    calls s' = (calls s ++ [NSApp_hide])%list /\
    shown s' = false) /\
   (key = "q" ->
    s' = final (NSApp_terminate_ s) /\
    NSApp s' = terminated_application s /\
    window s' = window s /\
    surroundings s' = surroundings s /\
    stdout s' = stdout s /\
    calls s' = (calls s ++ [NSApp_terminate])%list) /\
   (key = "n" -> s' = evaluated js_new_chat) /\
   (key = "," -> Z.testbit flags 20 = true -> Z.testbit flags 18 = false ->
    s' = evaluated js_saved_info)).
Proof.
  intros R Key. apply reachable_launched in R.
  destruct R as (_ & _ & _ & _ & D & _).
  cbv zeta.
  assert (F : RunLoop.step (RunLoop.KeyDown e) a s
              = final (AppDelegate.keyDown_ e s)).
  { unfold RunLoop.step, RunLoop.dispatch, AppWindow.keyDown_, bind, gets.
    now rewrite Key, D. }
  rewrite F. clear F. unfold AppDelegate.keyDown_.
  unfold NSCommandKeyMask, NSAlternateKeyMask, NSControlKeyMask.
  rewrite !truthy_land_bit by lia.
  split.
  - intros ->. now rewrite andb_false_r.
  - intros M ->.
    assert (M' : Z.testbit (modifierFlags e) 20 || Z.testbit (modifierFlags e) 18 = true).
    { destruct M as [-> | ->]; [reflexivity|apply orb_true_r]. }
    rewrite M'. cbn [andb negb].
    do 4 (split; [intros ->; reflexivity|]).
    split.
    { intros ->. unfold shown. cbn. rewrite andb_false_r.
      repeat split; reflexivity. }
    split.
    { intros ->. cbn. repeat split; reflexivity. }
    split; [intros ->; reflexivity|].
    intros -> -> ->. reflexivity.
Qed.

End Keys.

Lemma key_commands_witness :
  let a := {| RunLoop.now := "5.0"; RunLoop.startup_ok := true;
             RunLoop.startup_log := [] |} in
  let s' := @RunLoop.step example_constants (RunLoop.KeyDown example_command_h) a
              example_launched in
  shown example_launched = true /\
  shown s' = false /\
  isHidden (NSApp s') = true /\
  isKeyWindow (window s') = false /\
  calls s' = (calls example_launched ++ [NSApp_hide])%list.
Proof.
  intros a s'.
  assert (R : @RunLoop.reachable example_constants (Some (MachPort 1)) example_launched).
  { unfold example_launched, example_start. apply RunLoop.reach_launch. }
  destruct (@key_commands example_constants _ example_launched example_command_h a
              R eq_refl) as (_ & H).
  destruct (H (or_introl eq_refl) eq_refl) as (_ & _ & _ & _ & Hh & _).
  destruct (Hh eq_refl) as (_ & A & W & _ & _ & C & S).
  fold s' in A, W, C, S.
  split; [reflexivity|]. split; [exact S|].
  rewrite A, W. split; [reflexivity|]. split; [reflexivity|exact C].
Defined.

(** ** The layout of the content view *)

Section LayoutInvariant.

Context {K : Constants}.

(** C10.  The layout (drag area: the strip of height [DRAG_AREA_HEIGHT] at
    the top of the content view over its full width; web view: the rest of
    the content view below it) holds when the launch is over, holds whenever
    [windowDidResize_] has run, whatever the state before, and holds in
    every state the delegate can reach, in particular after every resize of
    the window.  When the drag area's height is between 0 and the height of
    the content view, the layout means that every point of the content view
    lies in exactly one of the two views, and every point of the two views
    in the content view. *)
Theorem layout_invariant :
  (forall created stored t0 saved dark built_in,
     layout (final (AppDelegate.applicationDidFinishLaunching_ created stored t0
                      (before_launch saved dark built_in)))) /\
  (forall s, layout (final (AppDelegate.windowDidResize_ s))) /\
  (forall created s,
     RunLoop.reachable created s ->
     layout s /\
     forall r a,
       let s' := RunLoop.step (RunLoop.WindowResized r) a s in
       frame (window s') = r /\ layout s') /\
  (forall s p,
     layout s ->
     0 <= DRAG_AREA_HEIGHT <= size_height (frame (window s)) ->
     let bounds := content_bounds s in
     let in_drag := NSPointInRect p (drag_area_frame (views s)) in
     let in_web := NSPointInRect p (webview_frame (views s)) in
     (NSPointInRect p bounds <-> in_drag \/ in_web) /\ ~ (in_drag /\ in_web)).
Proof.
  split; [|split; [|split]].
  - intros. eapply launch_launched.
  - intros s. unfold layout. cbn. split; reflexivity.
  - intros created s R. split.
    + eapply reachable_launched; eauto.
    + intros r a. cbv zeta. split.
      * apply reachable_launched in R.
        destruct R as (_ & _ & _ & O & _).
        unfold RunLoop.step, RunLoop.dispatch, RunLoop.resize. run_handler. cbn.
        destruct (frameAutosaveName (window s)); cbn; rewrite O; reflexivity.
      * eapply reachable_launched. apply RunLoop.reach_step. exact R.
  - intros s [x y] [Hd Hw] [D0 D1]. cbv zeta.
    rewrite Hd, Hw. unfold NSPointInRect. cbn.
    set (w := size_width (frame (window s))) in *.
    set (h := size_height (frame (window s))) in *.
    split; [split|]; intros; lra.
Qed.

End LayoutInvariant.

Lemma layout_invariant_witness :
  let a := {| RunLoop.now := "6.0"; RunLoop.startup_ok := true;
             RunLoop.startup_log := [] |} in
  let s := @RunLoop.step example_constants
             (RunLoop.WindowResized (NSMakeRect 100 100 800 600)) a example_launched in
  let p := {| pt_x := 400; pt_y := 580 |} in
  @layout example_constants s /\
  (NSPointInRect p (drag_area_frame (views s)) \/
   NSPointInRect p (webview_frame (views s))).
Proof.
  intros a s p.
  assert (R : @RunLoop.reachable example_constants (Some (MachPort 1)) s).
  { apply RunLoop.reach_step.
    unfold example_launched, example_start. apply RunLoop.reach_launch. }
  destruct (@layout_invariant example_constants) as (_ & _ & H3 & H4).
  destruct (H3 _ s R) as (L & _).
  split; [exact L|].
  apply (H4 s p L).
  - split; vm_compute; discriminate.
  - repeat split; vm_compute; congruence.
Defined.

(** * Further properties *)

(** ** Script messages *)

(** The four things a script message can do, with what decides between
    them. *)
Lemma script_message_effect (m : WKScriptMessage) (s : state) :
  let o := AppDelegate.userContentController_didReceiveScriptMessage_ m s in
  (o = Returned tt s /\
   (msg_name m = "backgroundColorHandler" -> passes_guard (msg_body m) = false) /\
   msg_name m <> "debugLogger") \/
  (exists r g b,
     o = Returned tt (with_drag_color (opaque_color r g b) s) /\
     msg_name m = "backgroundColorHandler" /\
     passes_guard (msg_body m) = true) \/
  (exists e,
     o = Raised e s /\
     msg_name m = "backgroundColorHandler" /\
     passes_guard (msg_body m) = true) \/
  (o = Returned tt
         (with_stdout (fun out => (out ++ [("[JS DEBUG] " ++ msg_body m)%string])%list) s) /\
   msg_name m = "debugLogger").
Proof.
  unfold AppDelegate.userContentController_didReceiveScriptMessage_, passes_guard.
  destruct (String.eqb_spec (msg_name m) "backgroundColorHandler") as [N|N].
  - destruct (Py.startswith "rgb" (msg_body m) && Py.contains "(" (msg_body m)
              && Py.contains ")" (msg_body m)).
    2:{ left. repeat split; auto. rewrite N. discriminate. }
    unfold bind, index_of.
    destruct (Py.index "(" (msg_body m)) as [i|];
      [|right; right; left; exists ValueError_index; now repeat split].
    destruct (Py.index ")" (msg_body m)) as [j|];
      [|right; right; left; exists ValueError_index; now repeat split].
    unfold ret.
    destruct (floats_cases (Py.split "," (Py.slice (i + 1) j (msg_body m))) s)
      as [[vs ->] | [e ->]]; [|right; right; left; exists e; now repeat split].
    unfold unpack3.
    destruct (firstn 3 vs) as [|r [|g [|b [|x l]]]] eqn:E; cbn [List.map];
      try (right; right; left; eexists; unfold raise;
           repeat split; try reflexivity; exact N).
    right; left. exists r, g, b. repeat split; try reflexivity; exact N.
  - destruct (String.eqb_spec (msg_name m) "debugLogger") as [D|D].
    + right; right; right. split; [reflexivity|assumption].
    + left. repeat split; auto. intros E. contradiction.
Qed.

(** X1.  A script message never reaches beyond the drag area's colour and
    the output: whatever its channel and body, and whether the handler
    returns or raises, the application, the window, the frames of the
    views, the web view's configuration, the status item, the tap, the
    timers, the observers, the stored data and the list of framework calls
    are as before.  A message on [debugLogger] prints the one line
    [[JS DEBUG] body] and leaves the colour; a message on any channel but
    [debugLogger] prints nothing; a message on any channel but
    [backgroundColorHandler] leaves the colour. *)
Theorem script_message_frame (m : WKScriptMessage) (s : state) :
  let s' := final (AppDelegate.userContentController_didReceiveScriptMessage_ m s) in
  (NSApp s' = NSApp s /\ window s' = window s /\ web s' = web s /\
   status_item s' = status_item s /\ tap s' = tap s /\ timers s' = timers s /\
   resize_observer s' = resize_observer s /\
   local_mouse_monitor s' = local_mouse_monitor s /\
   persisted s' = persisted s /\ calls s' = calls s) /\
  (drag_area_frame (views s') = drag_area_frame (views s) /\
   webview_frame (views s') = webview_frame (views s) /\
   close_button_frame (views s') = close_button_frame (views s) /\
   close_button_action (views s') = close_button_action (views s)) /\
  (msg_name m = "debugLogger" ->
   stdout s' = (stdout s ++ [("[JS DEBUG] " ++ msg_body m)%string])%list /\
   views s' = views s) /\
  (msg_name m <> "debugLogger" -> stdout s' = stdout s) /\
  (msg_name m <> "backgroundColorHandler" -> views s' = views s).
Proof.
  cbv zeta.
  destruct (script_message_effect m s)
    as [(E & G & D) | [(r & g & b & E & N & G) | [(e & E & N & G) | (E & D)]]];
    cbv zeta in E; rewrite E; cbn [final];
    (split; [repeat split; reflexivity|]);
    (split; [repeat split; reflexivity|]);
    repeat split; try reflexivity; try congruence;
    try (intros H; rewrite H in N; discriminate);
    try (intros H; rewrite N in H; discriminate).
Qed.

Lemma script_message_frame_witness :
  let m := {| msg_name := "debugLogger"; msg_body := "Focus in" |} in
  stdout (final (AppDelegate.userContentController_didReceiveScriptMessage_ m
                   example_launched))
  = (stdout example_launched ++ ["[JS DEBUG] Focus in"])%list.
Proof.
  intros m.
  destruct (script_message_frame m example_launched) as (_ & _ & H & _).
  apply H. reflexivity.
Defined.

(** X2.  Every colour the handler applies is opaque and comes from a body
    that passed the guard on the colour channel: whenever the drag area's
    colour after a script message is not the colour before, it is a colour
    of alpha 1 whose other components are floats divided by 255, the
    channel is [backgroundColorHandler], the body starts with [rgb] and
    holds both parentheses, and the handler has returned normally. *)
Theorem applied_color_is_opaque (m : WKScriptMessage) (s : state) :
  let o := AppDelegate.userContentController_didReceiveScriptMessage_ m s in
  drag_area_backgroundColor (views (final o))
    <> drag_area_backgroundColor (views s) ->
  exists r g b,
    o = Returned tt (with_drag_color (opaque_color r g b) s) /\
    drag_area_backgroundColor (views (final o)) = Some (opaque_color r g b) /\
    alphaComponent (opaque_color r g b) = Py.Fin 1 /\
    msg_name m = "backgroundColorHandler" /\
    Py.startswith "rgb" (msg_body m) = true /\
    Py.contains "(" (msg_body m) = true /\
    Py.contains ")" (msg_body m) = true.
Proof.
  cbv zeta. intros H.
  destruct (script_message_effect m s)
    as [(E & _) | [(r & g & b & E & N & G) | [(e & E & _) | (E & _)]]];
    cbv zeta in E; rewrite E in H |- *; cbn [final] in H;
    try (exfalso; apply H; reflexivity).
  exists r, g, b. unfold passes_guard in G.
  apply andb_true_iff in G as [G G3]. apply andb_true_iff in G as [G1 G2].
  repeat split; auto.
Qed.

Lemma applied_color_is_opaque_witness :
  exists r g b,
    drag_area_backgroundColor
      (views (final (AppDelegate.userContentController_didReceiveScriptMessage_
                       (color_message "rgb(10, 20, 30)") example_launched)))
    = Some (opaque_color r g b).
Proof.
  destruct (applied_color_is_opaque (color_message "rgb(10, 20, 30)") example_launched)
    as (r & g & b & _ & H & _).
  - vm_compute. discriminate.
  - exists r, g, b. exact H.
Defined.

Lemma contains_index c s :
  Py.contains c s = true -> exists i, Py.index c s = Some i.
Proof.
  induction s as [|d s IH]; simpl; [discriminate|].
  destruct (Ascii.eqb c d); [now exists 0%nat|].
  intros H. destruct (IH H) as [i ->]. now exists (S i).
Qed.

Lemma floats_first_bad (s : state) before p after :
  Forall (fun q => Py.float_of_string q <> None) before ->
  Py.float_of_string p = None ->
  floats (before ++ p :: after) s = Raised (ValueError_float p) s.
Proof.
  intros H Hp. induction H as [|q qs Hq _ IH]; simpl.
  - now rewrite Hp.
  - destruct (Py.float_of_string q); [|contradiction].
    unfold bind. now rewrite IH.
Qed.

(** X3.  What decides between a colour and an exception, for a body that
    passed the guard.  The handler cuts what stands between the first [(]
    and the first [)] at the commas.  If every piece reads as a float and
    there are at least three, it applies the colour of the first three (the
    others only have to be floats); if every piece reads as a float and
    there are fewer than three, it raises the unpacking [ValueError] with
    their number; otherwise it raises the conversion [ValueError] for the
    first piece that is no float.  In the last two cases the state is
    untouched. *)
Theorem color_handler_outcome (s : state) (body : string) :
  passes_guard body = true ->
  exists i j,
    Py.index "(" body = Some i /\ Py.index ")" body = Some j /\
    let o := AppDelegate.userContentController_didReceiveScriptMessage_
               (color_message body) s in
    (forall values,
       Forall2 (fun p v => Py.float_of_string p = Some v)
         (color_pieces i j body) values ->
       match values with
       | r :: g :: b :: _ =>
           o = Returned tt (with_drag_color (opaque_color r g b) s)
       | _ => o = Raised (ValueError_unpack 3 (List.length values)) s
       end) /\
    (forall before p after,
       color_pieces i j body = (before ++ p :: after)%list ->
       Forall (fun q => Py.float_of_string q <> None) before ->
       Py.float_of_string p = None ->
       o = Raised (ValueError_float p) s).
Proof.
  intros G. pose proof G as G'. unfold passes_guard in G'.
  apply andb_true_iff in G' as [G' G3]. apply andb_true_iff in G' as [G1 G2].
  destruct (contains_index _ _ G2) as [i Hi].
  destruct (contains_index _ _ G3) as [j Hj].
  exists i, j. split; [exact Hi|]. split; [exact Hj|]. cbv zeta.
  assert (R : AppDelegate.userContentController_didReceiveScriptMessage_
                (color_message body) s
              = bind (floats (color_pieces i j body))
                  (fun rgb_values =>
                     bind (unpack3 (List.map (fun val => Py.div val 255)
                                      (firstn 3 rgb_values)))
                       (fun rgb =>
                          let '(r, g, b) := rgb in
                          DragArea.setBackgroundColor_
                            {| redComponent := r; greenComponent := g;
                               blueComponent := b;
                               alphaComponent := Py.Fin 1 |})) s).
  { unfold AppDelegate.userContentController_didReceiveScriptMessage_, color_message.
    cbn [msg_name msg_body]. rewrite String.eqb_refl.
    unfold passes_guard in G. rewrite G.
    unfold index_of, bind at 1. rewrite Hi. unfold ret at 1.
    unfold bind at 1. rewrite Hj. reflexivity. }
  rewrite R. split.
  - intros values F. apply (floats_numeric s) in F.
    destruct values as [|r [|g [|b rest]]];
      unfold bind at 1; rewrite F; reflexivity.
  - intros before p after E Hb Hp. unfold bind at 1.
    rewrite E, (floats_first_bad s before p after Hb Hp). reflexivity.
Qed.

Lemma color_handler_outcome_witness :
  AppDelegate.userContentController_didReceiveScriptMessage_
    (color_message "rgb(1, x, 3)") example_launched
  = Raised (ValueError_float " x") example_launched.
Proof.
  destruct (color_handler_outcome example_launched "rgb(1, x, 3)" eq_refl)
    as (i & j & Hi & Hj & _ & H).
  vm_compute in Hi. vm_compute in Hj.
  injection Hi as <-. injection Hj as <-.
  apply (H ["1"] " x" [" 3"]).
  - reflexivity.
  - constructor; [vm_compute; discriminate|constructor].
  - reflexivity.
Defined.

(** ** Colour strings as browsers write them *)

Lemma float_eqb_eq x y : float_eqb x y = true -> x = y.
Proof.
  destruct x as [[a b]| | |], y as [[c d]| | |]; simpl; try discriminate; auto.
  - intros H. apply andb_true_iff in H as [H1 H2].
    apply Z.eqb_eq in H1. apply Pos.eqb_eq in H2. now subst.
  - intros H. apply Bool.eqb_prop in H. now subst.
Qed.

Lemma float_after_blank x : Py.float_of_string (" " ++ x) = Py.float_of_string x.
Proof. reflexivity. Qed.

Lemma channels_divide_as_IEEE :
  forallb (fun n =>
             float_eqb (Py.div (Py.Fin (inject_Z (Z.of_nat n))) 255)
               (of_spec_float
                  (SpecFloat.SFdiv 53 1024 (binary64 (Z.of_nat n)) (binary64 255))))
    (seq 0 256) = true.
Proof. vm_compute. reflexivity. Qed.

(** On every 8-bit channel, the division by 255 is the division of IEEE 754
    binary64 as the Standard Library specifies it. *)
Lemma channel_division_is_IEEE n :
  (n <= 255)%nat ->
  Py.div (Py.Fin (inject_Z (Z.of_nat n))) 255
  = of_spec_float (SpecFloat.SFdiv 53 1024 (binary64 (Z.of_nat n)) (binary64 255)).
Proof.
  intros H. pose proof channels_divide_as_IEEE as C.
  rewrite forallb_forall in C.
  apply float_eqb_eq, C, in_seq. lia.
Qed.

(** Every numeral of an 8-bit channel reads as its number. *)
Lemma channels_read :
  forallb (fun n =>
             match Py.float_of_string (dec n) with
             | Some x => float_eqb x (Py.Fin (inject_Z (Z.of_nat n)))
             | None => false
             end) (seq 0 256) = true.
Proof. vm_compute. reflexivity. Qed.

Lemma channel_numeric n :
  (n <= 255)%nat -> numeric (dec n) (inject_Z (Z.of_nat n)).
Proof.
  intros H. pose proof channels_read as C.
  rewrite forallb_forall in C.
  specialize (C n). unfold numeric.
  destruct (Py.float_of_string (dec n)) as [x|].
  - f_equal. apply float_eqb_eq, C, in_seq. lia.
  - discriminate C. apply in_seq. lia.
Qed.

Lemma css_rgb_shape r g b :
  css_rgb r g b
  = "rgb" ++ "(" ++ (dec r ++ "," ++ (" " ++ dec g) ++ "," ++ (" " ++ dec b)) ++ ")".
Proof.
  unfold css_rgb. rewrite !append_assoc. reflexivity.
Qed.

Lemma css_rgba_shape r g b alpha :
  css_rgba r g b alpha
  = "rgba" ++ "(" ++ (dec r ++ "," ++ (" " ++ dec g) ++ "," ++ (" " ++ dec b)
                        ++ "," ++ (" " ++ alpha)) ++ ")".
Proof.
  unfold css_rgba. rewrite !append_assoc. reflexivity.
Qed.

(** X4.  The strings a browser computes for a background of 8-bit channels
    are read as written: for all naturals [r], [g], [b] up to 255, the body
    [rgb(r, g, b)] in decimal, and the body [rgba(r, g, b, alpha)] for any
    [alpha] that reads as a float, make the handler return with the drag
    area's colour set to the doubles [r / 255.0], [g / 255.0],
    [b / 255.0], opaque; each of the three is a number between 0 and 1,
    within [2^-53] of the exact quotient of the integer written. *)
Theorem browser_colors_read (s : state) (r g b : nat) (alpha : string) (a : Py.float) :
  (r <= 255)%nat -> (g <= 255)%nat -> (b <= 255)%nat ->
  Py.float_of_string alpha = Some a ->
  let channel n := Py.Fin (inject_Z (Z.of_nat n)) in
  let c := opaque_color (channel r) (channel g) (channel b) in
  AppDelegate.userContentController_didReceiveScriptMessage_
    (color_message (css_rgb r g b)) s
  = Returned tt (with_drag_color c s) /\
  AppDelegate.userContentController_didReceiveScriptMessage_
    (color_message (css_rgba r g b alpha)) s
  = Returned tt (with_drag_color c s) /\
  exists red green blue : Q,
    c = {| redComponent := Py.Fin red; greenComponent := Py.Fin green;
           blueComponent := Py.Fin blue; alphaComponent := Py.Fin 1 |} /\
    normalized (inject_Z (Z.of_nat r)) red /\
    normalized (inject_Z (Z.of_nat g)) green /\
    normalized (inject_Z (Z.of_nat b)) blue.
Proof.
  intros Hr Hg Hb Ha. cbv zeta.
  assert (N : forall n, (n <= 255)%nat ->
                exists x, Py.div (Py.Fin (inject_Z (Z.of_nat n))) 255 = Py.Fin x /\
                          normalized (inject_Z (Z.of_nat n)) x).
  { intros n Hn. apply div_255_normalized. split.
    - rewrite <- (Zle_Qle 0). lia.
    - rewrite <- (Zle_Qle _ 255). lia. }
  destruct (N r Hr) as (red & Er & Tr), (N g Hg) as (green & Eg & Tg),
    (N b Hb) as (blue & Eb & Tb).
  apply channel_numeric in Hr, Hg, Hb. unfold numeric in *.
  assert (Hg' := Hg). assert (Hb' := Hb). assert (Ha' := Ha).
  rewrite <- float_after_blank in Hg', Hb', Ha'.
  assert (D : delimiter "," = true) by reflexivity.
  assert (P : delimiter ")" = true) by reflexivity.
  split; [|split].
  3:{ exists red, green, blue. unfold opaque_color. rewrite Er, Eg, Eb.
      split; [reflexivity|]. repeat (split; [assumption|]). assumption. }
  - rewrite css_rgb_shape.
    rewrite (color_handler_reads s "rgb" _
               [dec r; " " ++ dec g; " " ++ dec b]
               [Py.Fin (inject_Z (Z.of_nat r)); Py.Fin (inject_Z (Z.of_nat g));
                Py.Fin (inject_Z (Z.of_nat b))] (or_introl eq_refl)).
    + reflexivity.
    + rewrite !contains_app.
      rewrite (number_without ")" _ _ P Hr), (number_without ")" _ _ P Hg),
        (number_without ")" _ _ P Hb). reflexivity.
    + change (dec r ++ "," ++ (" " ++ dec g) ++ "," ++ " " ++ dec b)
        with (dec r ++ String "," ((" " ++ dec g) ++ String "," (" " ++ dec b))).
      rewrite split_app_char by (eapply number_without; eauto).
      rewrite split_app_char by (eapply number_without; eauto).
      rewrite split_plain by (eapply number_without; eauto).
      reflexivity.
    + apply floats_numeric. repeat constructor; assumption.
  - rewrite css_rgba_shape.
    rewrite (color_handler_reads s "rgba" _
               [dec r; " " ++ dec g; " " ++ dec b; " " ++ alpha]
               [Py.Fin (inject_Z (Z.of_nat r)); Py.Fin (inject_Z (Z.of_nat g));
                Py.Fin (inject_Z (Z.of_nat b)); a] (or_intror eq_refl)).
    + reflexivity.
    + rewrite !contains_app.
      rewrite (number_without ")" _ _ P Hr), (number_without ")" _ _ P Hg),
        (number_without ")" _ _ P Hb), (number_without ")" _ _ P Ha).
      reflexivity.
    + change (dec r ++ "," ++ (" " ++ dec g) ++ "," ++ (" " ++ dec b)
                ++ "," ++ " " ++ alpha)
        with (dec r ++ String "," ((" " ++ dec g)
                ++ String "," ((" " ++ dec b) ++ String "," (" " ++ alpha)))).
      rewrite split_app_char by (eapply number_without; eauto).
      rewrite split_app_char by (eapply number_without; eauto).
      rewrite split_app_char by (eapply number_without; eauto).
      rewrite split_plain by (eapply number_without; eauto).
      reflexivity.
    + apply floats_numeric. repeat constructor; assumption.
Qed.

Lemma browser_colors_read_witness :
  AppDelegate.userContentController_didReceiveScriptMessage_
    (color_message (css_rgba 19 19 20 "0.85")) example_launched
  = Returned tt
      (with_drag_color
         (opaque_color (Py.Fin (inject_Z 19)) (Py.Fin (inject_Z 19))
            (Py.Fin (inject_Z 20))) example_launched).
Proof.
  refine (proj1 (proj2 _)).
  apply (browser_colors_read example_launched 19 19 20 "0.85"
           (Py.Fin (7656119366529843 # 9007199254740992)));
    [vm_compute; lia .. | vm_compute; reflexivity].
Defined.

(** ** Key commands beyond the listed ones *)

Lemma keyDown_by_bits (e : NSEvent) :
  AppDelegate.keyDown_ e
  = let key := charactersIgnoringModifiers e in
    let command := Z.testbit (modifierFlags e) 20 in
    let alt := Z.testbit (modifierFlags e) 19 in
    let control := Z.testbit (modifierFlags e) 18 in
    if (command || control) && negb alt then
      if key =? "a" then firstResponder_send "selectAll:"
      else if key =? "c" then firstResponder_send "copy:"
      else if key =? "x" then firstResponder_send "cut:"
      else if key =? "v" then firstResponder_send "paste:"
      else if key =? "h" then AppDelegate.hideWindow_ None
      else if key =? "n" then
        webview_evaluateJavaScript_completionHandler_ js_new_chat
      else if (key =? "s") && control && command then
        webview_evaluateJavaScript_completionHandler_ js_toggle_sidebar
      else if key =? "q" then NSApp_terminate_
      else if (key =? ",") && command && negb control && negb alt then
        webview_evaluateJavaScript_completionHandler_ js_saved_info
      else ret tt
    else ret tt.
Proof.
  unfold AppDelegate.keyDown_, NSCommandKeyMask, NSAlternateKeyMask,
    NSControlKeyMask.
  rewrite !truthy_land_bit by lia. reflexivity.
Qed.

(** X5.  Of a key-down event the delegate reads the characters and the
    three modifier bits 18 (Control), 19 (Option) and 20 (Command), and
    nothing else: two events that agree on these are handled alike, in
    every state.  In particular Shift, Caps Lock and the function key
    change nothing as long as the characters are the same. *)
Theorem keyDown_reads_three_modifiers (e1 e2 : NSEvent) (s : state) :
  charactersIgnoringModifiers e1 = charactersIgnoringModifiers e2 ->
  Z.testbit (modifierFlags e1) 18 = Z.testbit (modifierFlags e2) 18 ->
  Z.testbit (modifierFlags e1) 19 = Z.testbit (modifierFlags e2) 19 ->
  Z.testbit (modifierFlags e1) 20 = Z.testbit (modifierFlags e2) 20 ->
  AppDelegate.keyDown_ e1 s = AppDelegate.keyDown_ e2 s.
Proof.
  intros Hk H18 H19 H20. rewrite !keyDown_by_bits. cbv zeta.
  now rewrite Hk, H18, H19, H20.
Qed.

Lemma keyDown_reads_three_modifiers_witness :
  let plain_v :=
    {| ev_window := Some overlay_window;
       locationInWindow := {| pt_x := 0; pt_y := 0 |}; hitTest := None;
       modifierFlags := NSCommandKeyMask; charactersIgnoringModifiers := "v" |} in
  let caps_lock_v :=
    {| ev_window := None;
       locationInWindow := {| pt_x := 3; pt_y := 4 |}; hitTest := Some webview;
       modifierFlags := Z.lor NSCommandKeyMask (Z.shiftl 1 16);
       charactersIgnoringModifiers := "v" |} in
  AppDelegate.keyDown_ plain_v example_launched
  = AppDelegate.keyDown_ caps_lock_v example_launched.
Proof.
  intros plain_v caps_lock_v.
  apply (keyDown_reads_three_modifiers plain_v caps_lock_v example_launched);
    reflexivity.
Defined.

(** X6.  When a key-down event leaves everything alone.  The handler
    returns with the state untouched: when neither Command nor Control is
    down (plain typing is never intercepted); when Option is down; when the
    characters are none of [a c x v h n s q ,]; for [s] unless Control and
    Command are both down; and for [,] when Control is down or Command is
    not. *)
Theorem keyDown_inert (e : NSEvent) (s : state) :
  let key := charactersIgnoringModifiers e in
  let command := Z.testbit (modifierFlags e) 20 in
  let alt := Z.testbit (modifierFlags e) 19 in
  let control := Z.testbit (modifierFlags e) 18 in
  (command = false /\ control = false) \/
  alt = true \/
  ~ In key ["a"; "c"; "x"; "v"; "h"; "n"; "s"; "q"; ","] \/
  (key = "s" /\ (control = false \/ command = false)) \/
  (key = "," /\ (control = true \/ command = false)) ->
  AppDelegate.keyDown_ e s = Returned tt s.
Proof.
  cbv zeta. rewrite keyDown_by_bits. cbv zeta. intros H.
  destruct (Z.testbit (modifierFlags e) 20) eqn:C,
           (Z.testbit (modifierFlags e) 18) eqn:L,
           (Z.testbit (modifierFlags e) 19) eqn:A; cbn [orb andb negb];
    try reflexivity.
  all: destruct H as [[? ?] | [? | [N | [[E [?|?]] | [E [?|?]]]]]];
    try discriminate; try (rewrite E; reflexivity).
  all: repeat match goal with
              | |- context [?k =? ?l] =>
                  destruct (String.eqb_spec k l) as [E|_];
                  [exfalso; apply N; rewrite E; simpl; tauto|]
              end; reflexivity.
Qed.

Lemma keyDown_inert_witness :
  let typed_a :=
    {| ev_window := Some overlay_window;
       locationInWindow := {| pt_x := 0; pt_y := 0 |}; hitTest := None;
       modifierFlags := NSShiftKeyMask; charactersIgnoringModifiers := "a" |} in
  AppDelegate.keyDown_ typed_a example_launched = Returned tt example_launched.
Proof.
  intros typed_a.
  apply (keyDown_inert typed_a example_launched).
  left. split; reflexivity.
Defined.

(** X7.  Control+Command+S, without Option, asks the web view to evaluate
    the toggle-sidebar script and does nothing else; no other combination
    of modifiers and characters evaluates that script. *)
Theorem sidebar_needs_control_and_command (e : NSEvent) (s : state) :
  let toggled :=
    with_calls (fun cs => (cs ++ [evaluateJavaScript js_toggle_sidebar])%list) s in
  AppDelegate.keyDown_ e s = Returned tt toggled <->
  charactersIgnoringModifiers e = "s" /\
  Z.testbit (modifierFlags e) 18 = true /\
  Z.testbit (modifierFlags e) 20 = true /\
  Z.testbit (modifierFlags e) 19 = false.
Proof.
  cbv zeta. rewrite keyDown_by_bits. cbv zeta. split.
  - assert (D : forall c,
              c <> evaluateJavaScript js_toggle_sidebar ->
              forall o : outcome unit,
              o = Returned tt (with_calls (fun cs => (cs ++ [c])%list) s) ->
              o = Returned tt
                    (with_calls
                       (fun cs => (cs ++ [evaluateJavaScript js_toggle_sidebar])%list)
                       s) ->
              False).
    { intros c Hc o -> H.
      apply (f_equal (fun o => calls (final o))) in H. cbn in H.
      apply app_inv_head in H. congruence. }
    assert (U : Returned tt s
                = Returned tt
                    (with_calls
                       (fun cs => (cs ++ [evaluateJavaScript js_toggle_sidebar])%list)
                       s) -> False).
    { intros H. apply (f_equal (fun o => calls (final o))) in H. cbn in H.
      rewrite <- (app_nil_r (calls s)) in H at 1.
      apply app_inv_head in H. discriminate. }
    destruct (Z.testbit (modifierFlags e) 20) eqn:C,
             (Z.testbit (modifierFlags e) 18) eqn:L,
             (Z.testbit (modifierFlags e) 19) eqn:A; cbn [orb andb negb];
      try (intros H; exfalso; exact (U H)).
    all: repeat match goal with
           | |- context [?k =? ?l] => destruct (String.eqb_spec k l)
           end; cbn [andb];
      try (intros H; exfalso; exact (U H));
      try (intros H; exfalso;
           first [ eapply (D (firstResponder _)); [discriminate|reflexivity|exact H]
                 | eapply (D (evaluateJavaScript js_new_chat));
                   [discriminate|reflexivity|exact H]
                 | eapply (D (evaluateJavaScript js_saved_info));
                   [discriminate|reflexivity|exact H] ]);
      try (intros _; repeat split; assumption).
    all: intros H; exfalso;
      apply (f_equal (fun o => calls (final o))) in H; cbn in H;
      apply app_inv_head in H; discriminate.
  - intros (-> & -> & -> & ->). reflexivity.
Qed.

(** ** The run loop: more that every turn preserves *)

Lemma filter_remove_nth {A} (f : A -> bool) i l x :
  nth_error l i = Some x -> f x = false ->
  filter f (RunLoop.remove_nth i l) = filter f l.
Proof.
  revert i. induction l as [|y l IH]; intros [|i]; simpl; try discriminate.
  - intros [= ->] ->. reflexivity.
  - intros E H. now rewrite (IH _ E H).
Qed.

Lemma Forall_remove_nth {A} (P : A -> Prop) i l :
  Forall P l -> Forall P (RunLoop.remove_nth i l).
Proof.
  rewrite !Forall_forall. intros H x Hx. eapply H, remove_nth_incl, Hx.
Qed.

Ltac allowed_calls :=
  cbn; rewrite ?Forall_app; repeat split; auto;
  repeat constructor; cbn; auto; try congruence.

Section SteadyFacts.

Context {K : Constants}.

(** Sending an action leaves the close button, the status item and the
    run-loop source alone, and makes only allowed calls. *)
Lemma performSelector_steady created target sel sender a (s : state) :
  event_tap (tap s) = Some created ->
  exists s',
    RunLoop.performSelector target sel sender a s = Returned tt s' /\
    timers s' = timers s /\
    close_button_action (views s') = close_button_action (views s) /\
    status_item s' = status_item s /\
    event_tap_source (tap s') = event_tap_source (tap s) /\
    main_run_loop_sources (tap s') = main_run_loop_sources (tap s) /\
    (Forall (allowed_call created) (calls s) ->
     Forall (allowed_call created) (calls s')).
Proof.
  intros T.
  destruct target; run_handler;
    repeat case_if;
    try (eexists; split; [reflexivity|]; cbn;
         repeat split; auto; intros; allowed_calls).
  all: rewrite T; destruct created as [port|]; cbn;
    try (eexists; split; [reflexivity|]; cbn; repeat split; auto).
  all: destruct (tap_enabled (tap s)); cbn;
    eexists; (split; [reflexivity|]); cbn; repeat split; auto;
    intros; allowed_calls.
Qed.

Lemma launch_steady created stored t0 saved dark built_in :
  steady created
    (final (AppDelegate.applicationDidFinishLaunching_ created stored t0
              (before_launch saved dark built_in))).
Proof.
  split; [apply launch_launched|]. unfold settled.
  destruct created as [port|], saved as [r|], dark; cbn;
    repeat split; auto; repeat constructor; cbn; auto.
Qed.

Lemma settled_frame created (s s' : state) :
  timers s' = timers s ->
  close_button_action (views s') = close_button_action (views s) ->
  status_item s' = status_item s ->
  event_tap_source (tap s') = event_tap_source (tap s) ->
  main_run_loop_sources (tap s') = main_run_loop_sources (tap s) ->
  (Forall (allowed_call created) (calls s) ->
   Forall (allowed_call created) (calls s')) ->
  settled created s -> settled created s'.
Proof.
  unfold settled. intros -> -> -> -> -> H. tauto.
Qed.

Lemma step_steady created ev a (s : state) :
  steady created s -> steady created (RunLoop.step ev a s).
Proof.
  intros [L R].
  split; [now apply step_launched|].
  pose proof L as (T & _).
  unfold RunLoop.step.
  destruct ev as [i| |i| |m|e|e|r| |dark| ]; cbn [RunLoop.dispatch].
  - (* menu *)
    unfold bind at 1, gets.
    destruct (nth_error (status_menu (status_item s)) i) as [item|]; [|exact R].
    destruct (performSelector_steady created (item_target item) (item_action item)
                (Some (item_title item)) a s T)
      as (s' & -> & ? & ? & ? & ? & ? & ?).
    cbn [final]. eapply settled_frame; eauto.
  - (* close button *)
    unfold bind at 1, gets.
    destruct (performSelector_steady created target_self
                (close_button_action (views s)) (Some "NSButton") a s T)
      as (s' & -> & ? & ? & ? & ? & ? & ?).
    cbn [final]. eapply settled_frame; eauto.
  - (* timer *)
    unfold RunLoop.fire. unfold bind at 1, gets.
    destruct (nth_error (timers s) i) as [t|] eqn:E; [|exact R].
    destruct (repeats t) eqn:Rp.
    + unfold bind at 1, ret at 1.
      destruct (performSelector_steady created target_self (timer_selector t)
                  None a s T)
        as (s' & -> & ? & ? & ? & ? & ? & ?).
      cbn [final]. eapply settled_frame; eauto.
    + unfold bind at 1, modify.
      set (s1 := with_timers (RunLoop.remove_nth i) s).
      destruct (performSelector_steady created target_self (timer_selector t)
                  None a s1 T)
        as (s' & -> & ? & ? & ? & ? & ? & ?).
      cbn [final].
      apply (settled_frame created s1 s'); auto.
      destruct R as (B & F & M & I & S1 & S2 & C).
      subst s1. unfold settled. cbn. repeat split; auto.
      * now apply Forall_remove_nth.
      * rewrite <- M. eapply filter_remove_nth; eauto.
        assert (Ft : t = tap_monitor_timer \/ t = focus_timer).
        { rewrite Forall_forall in F. eapply F, nth_error_In, E. }
        destruct Ft as [-> | ->]; [discriminate Rp|reflexivity].
  - (* navigation *)
    run_handler.
    destruct (navigationDelegate (web s)); [|exact R].
    destruct R as (B & F & M & I & S1 & S2 & C).
    unfold settled. cbn. repeat split; auto.
    + apply Forall_app. split; [assumption|].
      constructor; [now right|constructor].
    + rewrite filter_app, M. cbn. apply app_nil_r.
  - (* script message *)
    destruct (script_message_cases m s) as [E | [[c E] | [[e E] | [line E]]]];
      cbv zeta in E; rewrite E; exact R.
  - (* key down *)
    run_handler.
    destruct (isKeyWindow (window s)); [|exact R].
    destruct (delegate (window s)); [|exact R].
    repeat case_if; try exact R;
      (eapply settled_frame; [..|exact R]; cbn; auto; intros; allowed_calls).
  - (* mouse down *)
    run_handler.
    destruct (local_mouse_monitor s); [|exact R].
    destruct (ev_window e) as [[|n]|]; try exact R.
    destruct (hitTest e) as [[]|]; try exact R.
    eapply settled_frame; [..|exact R]; cbn; auto; intros; allowed_calls.
  - (* resize *)
    unfold RunLoop.resize. run_handler. cbn.
    destruct (frameAutosaveName (window s)); cbn;
      destruct (resize_observer s); exact R.
  - (* tap disabled *)
    exact R.
  - (* appearance *)
    run_handler. cbn.
    destruct R as (B & F & M & I & S1 & S2 & C).
    unfold settled. cbn. repeat split; auto.
  - (* data removed *)
    run_handler. exact R.
Qed.

Lemma reachable_steady created (s : state) :
  RunLoop.reachable created s -> steady created s.
Proof.
  induction 1; [apply launch_steady | now apply step_steady].
Qed.

End SteadyFacts.

(** ** The status item *)

Section StatusItem.

Context {K : Constants}.

(** X8.  The logo of the status item always fits the appearance of the menu
    bar (white on dark, black on light): in every state the delegate can
    reach, and again after every change of appearance, which changes
    nothing but the logo.  The observer itself acts only on its own
    context and on the key path [effectiveAppearance]; any other
    notification leaves the state as it is. *)
Theorem status_logo_fits_appearance created (s : state) :
  RunLoop.reachable created s ->
  status_image (status_item s)
  = Some (fitting_logo (effectiveAppearance_dark (status_item s))) /\
  (forall dark a,
     let s' := RunLoop.step (RunLoop.AppearanceChanged dark) a s in
     effectiveAppearance_dark (status_item s') = dark /\
     status_image (status_item s') = Some (fitting_logo dark) /\
     status_menu (status_item s') = status_menu (status_item s) /\
     process_state s'
     = process_state (with_status_item (fun _ => status_item s') s) /\
     stdout s' = stdout s /\ calls s' = calls s) /\
  (forall keyPath context_matches,
     context_matches = false \/ keyPath <> "effectiveAppearance" ->
     AppDelegate.observeValueForKeyPath_ofObject_change_context_
       keyPath context_matches s
     = Returned tt s).
Proof.
  intros R. apply reachable_steady in R.
  destruct R as (_ & _ & _ & _ & I & _).
  split; [exact I|]. split.
  - intros dark a. cbv zeta. repeat split; reflexivity.
  - intros keyPath c [-> | N].
    + reflexivity.
    + unfold AppDelegate.observeValueForKeyPath_ofObject_change_context_.
      apply String.eqb_neq in N. rewrite N. now rewrite andb_false_r.
Qed.

End StatusItem.

Lemma status_logo_fits_appearance_witness :
  let a := {| RunLoop.now := "7.0"; RunLoop.startup_ok := true;
             RunLoop.startup_log := [] |} in
  status_image
    (status_item
       (@RunLoop.step example_constants (RunLoop.AppearanceChanged true) a
          example_launched))
  = Some logo_white.
Proof.
  intros a.
  assert (R : @RunLoop.reachable example_constants (Some (MachPort 1)) example_launched).
  { unfold example_launched, example_start. apply RunLoop.reach_launch. }
  destruct (@status_logo_fits_appearance example_constants _ example_launched R)
    as (_ & H & _).
  destruct (H true a) as (_ & H2 & _). exact H2.
Defined.

(** ** The timers of the run loop *)

Section Timers.

Context {K : Constants}.

(** X9.  The delegate schedules two kinds of timers and never a second
    liveness check: in every state it can reach, each timer of the run loop
    is either the repeating 1-second timer of [monitorEventTap:] or a
    one-shot 0.1-second timer of [_focusPromptTimerFired:], and the timers
    of [monitorEventTap:] are exactly one when the tap was created at the
    launch and none when it was not. *)
Theorem timers_are_of_two_kinds created (s : state) :
  RunLoop.reachable created s ->
  Forall (fun t => t = tap_monitor_timer \/ t = focus_timer) (timers s) /\
  filter is_monitor (timers s)
  = match created with Some _ => [tap_monitor_timer] | None => [] end.
Proof.
  intros R. apply reachable_steady in R.
  destruct R as (_ & _ & F & M & _). split; assumption.
Qed.

End Timers.

Lemma timers_are_of_two_kinds_witness :
  let a := {| RunLoop.now := "8.0"; RunLoop.startup_ok := true;
             RunLoop.startup_log := [] |} in
  let s := @RunLoop.step example_constants RunLoop.NavigationFinished a
             (@RunLoop.step example_constants RunLoop.NavigationFinished a
                example_launched) in
  filter is_monitor (timers s) = [tap_monitor_timer].
Proof.
  intros a s.
  assert (R : @RunLoop.reachable example_constants (Some (MachPort 1)) s).
  { do 2 apply RunLoop.reach_step.
    unfold example_launched, example_start. apply RunLoop.reach_launch. }
  exact (proj2 (@timers_are_of_two_kinds example_constants _ s R)).
Defined.

(** ** What the delegate asks of the frameworks *)

Section Calls.

Context {K : Constants}.

(** X11.  Every load request of the delegate is for [WEBSITE]: in every
    state it can reach, every call of [loadRequest] it has made was for
    [WEBSITE].  The third item of the status menu ("Home") makes exactly
    one such call and changes nothing else.  This is about [loadRequest]
    only and not about where the page goes: the scripts the delegate
    evaluates act inside the page, and the new-chat script sets the page's
    location to an address of its own when it finds no button to click. *)
Theorem loads_only_the_website created (s : state) :
  RunLoop.reachable created s ->
  (forall url, In (loadRequest url) (calls s) -> url = WEBSITE) /\
  (forall a,
     let s' := RunLoop.step (RunLoop.MenuItemChosen 2) a s in
     calls s' = (calls s ++ [loadRequest WEBSITE])%list /\
     process_state s' = process_state s /\ stdout s' = stdout s).
Proof.
  intros R. apply reachable_steady in R.
  destruct R as ((_ & _ & _ & _ & _ & M & _) & _ & _ & _ & _ & _ & _ & C).
  split.
  - intros url H. rewrite Forall_forall in C. exact (C _ H).
  - intros a. cbv zeta.
    assert (F : RunLoop.step (RunLoop.MenuItemChosen 2) a s
                = final (AppDelegate.goToWebsite_ (Some "Home") s)).
    { unfold RunLoop.step, RunLoop.dispatch, bind, gets. now rewrite M. }
    rewrite F. repeat split; reflexivity.
Qed.

(** X12.  The delegate never disables the event tap and never touches a tap
    it did not create: in every state it can reach, every call of
    [CGEventTapEnable] it has made passed [True] and the tap the launch
    created; after a launch without tap it has made none.  The run-loop
    source of the tap is the one the launch added, and no other. *)
Theorem tap_is_only_enabled created (s : state) :
  RunLoop.reachable created s ->
  (forall port enable,
     In (CGEventTapEnable port enable) (calls s) ->
     enable = true /\ created = Some port) /\
  (created = None ->
   forall port enable, ~ In (CGEventTapEnable port enable) (calls s)) /\
  main_run_loop_sources (tap s)
  = match created with Some port => [RunLoopSource port] | None => [] end.
Proof.
  intros R. apply reachable_steady in R.
  destruct R as (_ & _ & _ & _ & _ & _ & S2 & C).
  rewrite Forall_forall in C.
  split; [|split].
  - intros port enable H. exact (C _ H).
  - intros -> port enable H. destruct (C _ H) as [_ E]. discriminate.
  - exact S2.
Qed.

End Calls.

Lemma loads_only_the_website_witness :
  let a := {| RunLoop.now := "9.0"; RunLoop.startup_ok := true;
             RunLoop.startup_log := [] |} in
  calls (@RunLoop.step example_constants (RunLoop.MenuItemChosen 2) a example_launched)
  = (calls example_launched ++ [loadRequest "https://gemini.google.com"])%list.
Proof.
  intros a.
  assert (R : @RunLoop.reachable example_constants (Some (MachPort 1)) example_launched).
  { unfold example_launched, example_start. apply RunLoop.reach_launch. }
  destruct (@loads_only_the_website example_constants _ example_launched R)
    as (_ & H).
  exact (proj1 (H a)).
Defined.

Lemma tap_is_only_enabled_witness :
  let a := {| RunLoop.now := "9.5"; RunLoop.startup_ok := true;
             RunLoop.startup_log := [] |} in
  let s := @RunLoop.step example_constants (RunLoop.TimerFired 0) a
             (@RunLoop.step example_constants RunLoop.EventTapDisabled a
                example_launched) in
  In (CGEventTapEnable (MachPort 1) true) (calls s) /\
  forall port enable,
    In (CGEventTapEnable port enable) (calls s) ->
    enable = true /\ Some (MachPort 1) = Some port.
Proof.
  intros a s.
  assert (R : @RunLoop.reachable example_constants (Some (MachPort 1)) s).
  { do 2 apply RunLoop.reach_step.
    unfold example_launched, example_start. apply RunLoop.reach_launch. }
  split.
  - vm_compute. tauto.
  - exact (proj1 (@tap_is_only_enabled example_constants _ s R)).
Defined.

(** ** Where the end of the process comes from *)

Section Endings.

Context {K : Constants}.

(** X10.  What ends the process.  In a state the delegate can reach and in
    which the process runs, a turn of the run loop terminates it exactly
    when the event is the "Quit" item of the status menu, or the "Install
    Autolauncher" item with a registration that succeeds, or a key-down
    event delivered to the key window with characters [q], Command or
    Control down and Option up. *)
Theorem what_terminates created (s : state) ev a :
  RunLoop.reachable created s ->
  isTerminated (NSApp s) = false ->
  (isTerminated (NSApp (RunLoop.step ev a s)) = true <->
   ev = RunLoop.MenuItemChosen 7 \/
   (ev = RunLoop.MenuItemChosen 5 /\ RunLoop.startup_ok a = true) \/
   (exists e,
      ev = RunLoop.KeyDown e /\
      isKeyWindow (window s) = true /\
      charactersIgnoringModifiers e = "q" /\
      (Z.testbit (modifierFlags e) 20 = true \/
       Z.testbit (modifierFlags e) 18 = true) /\
      Z.testbit (modifierFlags e) 19 = false)).
Proof.
  intros R Run. apply reachable_steady in R.
  destruct R as ((T & _ & _ & _ & D & M & _) & B & F & _).
  unfold RunLoop.step.
  destruct ev as [i| |i| |m|e|e|r| |dark| ]; cbn [RunLoop.dispatch].
  - (* menu *)
    unfold bind at 1, gets. rewrite M.
    destruct i as [|[|[|[|[|[|[|[|i]]]]]]]]; cbn;
      try (rewrite Run; split; [discriminate|];
           intros [H | [[H _] | (e & H & _)]]; discriminate H).
    + destruct (RunLoop.startup_ok a); cbn.
      * split; [intros _; right; left; now split|reflexivity].
      * rewrite Run; split; [discriminate|].
        intros [H | [[_ H] | (e & H & _)]]; discriminate H.
    + destruct (RunLoop.startup_ok a); cbn;
        rewrite Run; (split; [discriminate|]);
        intros [H | [[H _] | (e & H & _)]]; discriminate H.
    + split; [intros _; now left|reflexivity].
    + destruct i; cbn; rewrite Run; (split; [discriminate|]);
        intros [H | [[H _] | (e & H & _)]]; discriminate H.
  - (* close button *)
    unfold bind at 1, gets. rewrite B. cbn. rewrite Run.
    split; [discriminate|].
    intros [H | [[H _] | (e & H & _)]]; discriminate H.
  - (* timer *)
    assert (N : isTerminated (NSApp (final (RunLoop.fire i a s))) = false).
    { unfold RunLoop.fire. unfold bind at 1, gets.
      destruct (nth_error (timers s) i) as [t|] eqn:E; [|exact Run].
      assert (Ft : t = tap_monitor_timer \/ t = focus_timer).
      { rewrite Forall_forall in F. eapply F, nth_error_In, E. }
      destruct Ft as [-> | ->]; cbn; [|exact Run].
      rewrite T. destruct created as [port|]; cbn; [|exact Run].
      destruct (tap_enabled (tap s)); exact Run. }
    rewrite N. split; [discriminate|].
    intros [H | [[H _] | (e & H & _)]]; discriminate H.
  - (* navigation *)
    run_handler. destruct (navigationDelegate (web s)); cbn;
      rewrite Run; (split; [discriminate|]);
      intros [H | [[H _] | (e & H & _)]]; discriminate H.
  - (* script message *)
    destruct (script_message_cases m s) as [E | [[c E] | [[e E] | [line E]]]];
      cbv zeta in E; rewrite E; cbn; rewrite Run; (split; [discriminate|]);
      intros [H | [[H _] | (e' & H & _)]]; discriminate H.
  - (* key down *)
    unfold bind at 1, gets.
    destruct (isKeyWindow (window s)) eqn:Key.
    2:{ cbn. rewrite Run. split; [discriminate|].
        intros [H | [[H _] | (e' & H & Hk & _)]]; discriminate. }
    unfold AppWindow.keyDown_, bind, gets. rewrite D.
    rewrite keyDown_by_bits. cbv zeta.
    split.
    + intros H. right; right. exists e.
      destruct (Z.testbit (modifierFlags e) 20) eqn:C,
               (Z.testbit (modifierFlags e) 18) eqn:L,
               (Z.testbit (modifierFlags e) 19) eqn:A; cbn [orb andb negb] in H;
        try (cbn in H; congruence).
      all: repeat match type of H with
             | context [?k =? ?l] => destruct (String.eqb_spec k l)
             end; cbn in H; try congruence;
        repeat split; auto.
    + intros [H | [[H _] | (e' & H & _ & Hq & Hm & Ha)]]; try discriminate H.
      injection H as <-. rewrite Hq, Ha.
      assert (Hm' : Z.testbit (modifierFlags e) 20
                    || Z.testbit (modifierFlags e) 18 = true).
      { destruct Hm as [-> | ->]; [reflexivity|apply orb_true_r]. }
      rewrite Hm'. reflexivity.
  - (* mouse down *)
    run_handler.
    destruct (local_mouse_monitor s); cbn;
      [destruct (ev_window e) as [[|n]|]; cbn;
       [destruct (hitTest e) as [[]|]; cbn| |]|];
      rewrite Run; (split; [discriminate|]);
      intros [H | [[H _] | (e' & H & _)]]; discriminate H.
  - (* resize *)
    unfold RunLoop.resize. run_handler. cbn.
    destruct (frameAutosaveName (window s)); cbn;
      destruct (resize_observer s); cbn;
      rewrite Run; (split; [discriminate|]);
      intros [H | [[H _] | (e' & H & _)]]; discriminate H.
  - cbn. rewrite Run. split; [discriminate|].
    intros [H | [[H _] | (e' & H & _)]]; discriminate H.
  - run_handler. cbn. rewrite Run. split; [discriminate|].
    intros [H | [[H _] | (e' & H & _)]]; discriminate H.
  - run_handler. cbn. rewrite Run. split; [discriminate|].
    intros [H | [[H _] | (e' & H & _)]]; discriminate H.
Qed.

End Endings.

Lemma what_terminates_witness :
  let a := {| RunLoop.now := "11.0"; RunLoop.startup_ok := false;
             RunLoop.startup_log := ["The login item was not changed."] |} in
  isTerminated
    (NSApp (@RunLoop.step example_constants (RunLoop.KeyDown example_command_q) a
              example_launched)) = true /\
  isTerminated
    (NSApp (@RunLoop.step example_constants (RunLoop.MenuItemChosen 5) a
              example_launched)) <> true.
Proof.
  intros a.
  assert (R : @RunLoop.reachable example_constants (Some (MachPort 1)) example_launched).
  { unfold example_launched, example_start. apply RunLoop.reach_launch. }
  split.
  - apply (@what_terminates example_constants _ example_launched
             (RunLoop.KeyDown example_command_q) a R eq_refl).
    right; right. exists example_command_q.
    repeat split; try reflexivity. left; reflexivity.
  - intros H.
    apply (@what_terminates example_constants _ example_launched
             (RunLoop.MenuItemChosen 5) a R eq_refl) in H.
    destruct H as [H | [[_ H] | (e & H & _)]]; discriminate H.
Defined.

(** ** Sequences of show and hide *)

Lemma act_frame v (s : state) :
  frame (window (act v s)) = frame (window s) /\
  frameAutosaveName (window (act v s)) = frameAutosaveName (window s) /\
  delegate (window (act v s)) = delegate (window s) /\
  isTerminated (NSApp (act v s)) = isTerminated (NSApp s) /\
  persisted (act v s) = persisted s /\ views (act v s) = views s /\
  timers (act v s) = timers s /\ tap (act v s) = tap s /\
  status_item (act v s) = status_item s.
Proof.
  destruct v; cbn; repeat split; reflexivity.
Qed.

(** X14.  However often and in whatever order the window is shown and
    hidden, only the last action counts for what is on screen: after a
    sequence that ends with a show the window is shown and key and the
    application active; after a sequence that ends with a hide the window
    is neither shown nor key and the application hidden.  No such sequence
    changes the window's frame, its autosave name or delegate, the stored
    frame and trigger, the views, the timers, the tap or the status item,
    and none terminates the process. *)
Theorem visibility_follows_last_action (vs : list visibility_action)
  (v : visibility_action) (s : state) :
  let s' := act_all (vs ++ [v]) s in
  (match v with
   | Show _ _ =>
       shown s' = true /\ isKeyWindow (window s') = true /\
       isActive (NSApp s') = true
   | Hide _ =>
       shown s' = false /\ isKeyWindow (window s') = false /\
       isHidden (NSApp s') = true
   end) /\
  frame (window s') = frame (window s) /\
  frameAutosaveName (window s') = frameAutosaveName (window s) /\
  delegate (window s') = delegate (window s) /\
  isTerminated (NSApp s') = isTerminated (NSApp s) /\
  persisted s' = persisted s /\ views s' = views s /\
  timers s' = timers s /\ tap s' = tap s /\
  status_item s' = status_item s.
Proof.
  cbv zeta. split.
  - unfold act_all. rewrite fold_left_app. cbn [fold_left].
    destruct v; unfold shown; cbn; rewrite ?andb_false_r; repeat split.
  - generalize (vs ++ [v])%list. clear vs v. intros l. revert s.
    induction l as [|v l IH]; intros s; [repeat split|].
    unfold act_all in *. cbn [fold_left].
    destruct (IH (act v s)) as (H1 & H2 & H3 & H4 & H5 & H6 & H7 & H8 & H9).
    destruct (act_frame v s) as (G1 & G2 & G3 & G4 & G5 & G6 & G7 & G8 & G9).
    rewrite H1, H2, H3, H4, H5, H6, H7, H8, H9.
    repeat split; assumption.
Qed.

(** ** The liveness check, on any state *)

(** X15.  The liveness check is safe to run at any time and any number of
    times.  It never raises.  When the delegate holds no tap (the attribute
    is not set, or creation failed), or holds a tap that is enabled, it
    changes nothing.  When it holds a tap that is disabled, it prints one
    line and enables that tap with one call, so that the tap is enabled
    afterwards.  In every case a second run right after the first changes
    nothing more, and the only things a run can change are the tap's
    enabled flag, the output and the record of calls: the tap handle, its
    source, the sources of the run loop, the application, the window, the
    views, the web view's configuration, the status item, the timers, the
    two observers and the stored data are as before. *)
Theorem monitorEventTap_idempotent (s : state) :
  exists s1,
    AppDelegate.monitorEventTap_ s = Returned tt s1 /\
    AppDelegate.monitorEventTap_ s1 = Returned tt s1 /\
    (event_tap (tap s) = None \/ event_tap (tap s) = Some None -> s1 = s) /\
    (tap_enabled (tap s) = true -> s1 = s) /\
    (forall port,
       event_tap (tap s) = Some (Some port) -> tap_enabled (tap s) = false ->
       tap_enabled (tap s1) = true /\
       calls s1 = (calls s ++ [CGEventTapEnable port true])%list /\
       stdout s1 = (stdout s ++ ["Event tap was disabled, re-enabling..."])%list) /\
    event_tap (tap s1) = event_tap (tap s) /\
    event_tap_source (tap s1) = event_tap_source (tap s) /\
    main_run_loop_sources (tap s1) = main_run_loop_sources (tap s) /\
    NSApp s1 = NSApp s /\ window s1 = window s /\ views s1 = views s /\
    web s1 = web s /\ status_item s1 = status_item s /\
    timers s1 = timers s /\
    resize_observer s1 = resize_observer s /\
    local_mouse_monitor s1 = local_mouse_monitor s /\
    persisted s1 = persisted s.
Proof.
  unfold AppDelegate.monitorEventTap_. run_handler.
  destruct (event_tap (tap s)) as [[port|]|] eqn:E.
  - destruct (tap_enabled (tap s)) eqn:En; cbn.
    + exists s. rewrite E, En.
      repeat split; auto; try discriminate; intros [H|H]; discriminate H.
    + eexists. split; [reflexivity|]. cbn. rewrite E. cbn.
      repeat split; auto; try discriminate;
        try (intros [H|H]; discriminate H);
        match goal with H : Some (Some _) = Some (Some _) |- _ =>
          injection H as <-; reflexivity end.
  - exists s. rewrite E. repeat split; auto; discriminate.
  - exists s. rewrite E. repeat split; auto; discriminate.
Qed.

(** ** A launch with the event tap *)

Section LaunchWithTap.

Context {K : Constants}.

(** X16.  When [CGEventTapCreate] returns a tap, the launch returns
    normally with the tap enabled and integrated: the delegate holds the
    tap and its run-loop source, the main run loop holds that one source
    and the one timer of the liveness check, the success line is printed
    and the failure line is not.  The calls of the launch are, in order:
    load [WEBSITE], enable the tap, bring the window to the front,
    activate the application, evaluate the focus script.  The two script
    channels are registered, the window has the delegate, and the eight
    menu items are installed. *)
Theorem launch_with_tap port stored t0 saved dark built_in :
  let start := before_launch saved dark built_in in
  let s := final (AppDelegate.applicationDidFinishLaunching_ (Some port) stored t0
                    start) in
  AppDelegate.applicationDidFinishLaunching_ (Some port) stored t0 start
  = Returned tt s /\
  event_tap (tap s) = Some (Some port) /\
  tap_enabled (tap s) = true /\
  event_tap_source (tap s) = Some (RunLoopSource port) /\
  main_run_loop_sources (tap s) = [RunLoopSource port] /\
  timers s = [tap_monitor_timer] /\
  In "Event tap successfully integrated into main run loop" (stdout s) /\
  ~ In "Failed to create event tap. Check Accessibility permissions." (stdout s) /\
  calls s = [loadRequest WEBSITE; CGEventTapEnable port true; makeKeyAndOrderFront;
             activateIgnoringOtherApps true; evaluateJavaScript (js_focus t0)] /\
  scriptMessageHandlers (web s) = ["backgroundColorHandler"; "debugLogger"] /\
  delegate (window s) = true /\
  List.length (status_menu (status_item s)) = 8%nat /\
  shown s = true.
Proof.
  cbv zeta.
  split; [reflexivity|].
  do 5 (split; [reflexivity|]).
  split; [cbn; now left|].
  split.
  - cbn. intros [H | [H | [H | []]]]; discriminate H.
  - repeat split; reflexivity.
Qed.

End LaunchWithTap.
